(** * fitness-tracker: packages [spentcalories] and [daysteps]

    A shallow embedding of the two Go packages of the repository and the
    properties of their report functions.

    - Go's [float64] is Rocq's primitive binary64 [float]; every operation
      rounds to nearest-even as the Go compiler's does.
    - Go's [int] (on a 64-bit platform) and [time.Duration] are 64-bit
      signed integers, carried as [Z] inside the range of [int64].
    - Go's [string] is a sequence of bytes: Rocq's [string].  The Cyrillic
      literals are their UTF-8 bytes, as in the Go source.
    - A Go function returning [(T, error)] returns a pair whose second
      component is an [option error]; [None] is [nil].
    - The only state outside the arguments is the standard logger, written
      by [log.Println]; it is passed explicitly as a [Log]. *)

From Stdlib Require Import ZArith List String Ascii Bool Lia Floats.
Import ListNotations.

Set Warnings "-inexact-float".

Open Scope string_scope.
Open Scope Z_scope.

(* ================================================================== *)
(** * The parts of Go's standard library the packages call *)
(* ================================================================== *)

(** [strings.Split], [strconv.Atoi], [time.ParseDuration], the methods
    [Hours] and [Minutes] of [time.Duration] and the verbs [%d] and [%.2f]
    of [fmt], written after the library's own code and documentation. *)

Module GoLib.

(** ** Integers *)

Definition maxInt64 : Z := 9223372036854775807.
Definition minInt64 : Z := -9223372036854775808.

(** Arithmetic on [uint64] wraps around. *)
Definition u64 (z : Z) : Z := z mod 18446744073709551616.

(** The conversion [int64(x)] of a [uint64]. *)
Definition int64_of_u64 (z : Z) : Z :=
  if z <=? maxInt64 then z else z - 18446744073709551616.

(** Negation of an [int64] wraps around at [minInt64]. *)
Definition neg64 (z : Z) : Z := if z =? minInt64 then minInt64 else - z.

(** ** Floating point *)

(** The conversion [float64(n)] of an integer: the nearest binary64. *)
Definition float64_of_Z (z : Z) : float :=
  SF2Prim (binary_normalize prec emax z 0 false).

(** The conversion [uint64(x)] of a finite non-negative [float64] below
    2^64: the fraction is discarded.  (Outside that range Go leaves the
    result to the implementation; the callers below stay inside it.) *)
Definition u64_of_float64 (x : float) : Z :=
  match Prim2SF x with
  | S754_finite false m e =>
      if 0 <=? e then u64 (Z.pos m * 2 ^ e) else Z.pos m / 2 ^ (- e)
  | _ => 0
  end.

(** ** Bytes and decimal digits *)

Definition byte_val (c : ascii) : Z := Z.of_N (N_of_ascii c).

Definition is_digit (c : ascii) : bool :=
  (48 <=? byte_val c) && (byte_val c <=? 57).

Definition digit_val (c : ascii) : Z := byte_val c - 48.

Definition digit_char (d : Z) : ascii := ascii_of_N (Z.to_N (48 + d)).

(** ** [strings.Split(s, ",")] *)

Definition comma : ascii := ","%char.

Fixpoint strings_Split (s : string) : list string :=
  match s with
  | EmptyString => [EmptyString]
  | String c rest =>
      if Ascii.eqb c comma then EmptyString :: strings_Split rest
      else match strings_Split rest with
           | [] => [String c EmptyString]
           | p :: ps => String c p :: ps
           end
  end.

(** ** [strconv.Atoi] *)

(** The two causes a [*strconv.NumError] wraps. *)
Inductive NumError : Type :=
| ErrSyntax
| ErrRange.

Definition maxUint64 : Z := 18446744073709551615.
Definition two63 : Z := 9223372036854775808.

(** The optional sign in front of a number. *)
Definition strip_sign (s : string) : bool * string :=
  match s with
  | String "-"%char rest => (true, rest)
  | String "+"%char rest => (false, rest)
  | _ => (false, s)
  end.

(** The loop of [strconv.ParseUint(s, 10, 64)], byte by byte: the first
    byte that is not a digit is a syntax error, the first digit that takes
    the value past [maxUint64] a range error. *)
Fixpoint parse_uint (s : string) (n : Z) : Z + NumError :=
  match s with
  | EmptyString => inl n
  | String c rest =>
      if negb (is_digit c) then inr ErrSyntax
      else if maxUint64 / 10 + 1 <=? n then inr ErrRange
      else
        let n1 := n * 10 + digit_val c in
        if maxUint64 <? n1 then inr ErrRange else parse_uint rest n1
  end.

(** [strconv.Atoi], an [int] being 64 bits wide: an optional sign, then at
    least one digit and only digits; the value must fit in an [int].  On a
    range error Go returns the nearest bound, on a syntax error zero. *)
Definition strconv_Atoi (s : string) : Z * option NumError :=
  let '(neg, body) := strip_sign s in
  match body with
  | EmptyString => (0, Some ErrSyntax)
  | _ =>
      match parse_uint body 0 with
      | inr ErrSyntax => (0, Some ErrSyntax)
      | inr ErrRange => (if neg then minInt64 else maxInt64, Some ErrRange)
      | inl un =>
          if negb neg && (two63 <=? un) then (maxInt64, Some ErrRange)
          else if neg && (two63 <? un) then (minInt64, Some ErrRange)
          else (if neg then - un else un, None)
      end
  end.

(** ** [strconv.Itoa] and the verb [%d] *)

Fixpoint utoa_aux (fuel : nat) (n : Z) (acc : string) : string :=
  match fuel with
  | O => acc
  | S fuel' =>
      let acc' := String (digit_char (n mod 10)) acc in
      if n <? 10 then acc' else utoa_aux fuel' (n / 10) acc'
  end.

(** Decimal digits of a non-negative integer, no leading zero. *)
Definition utoa (n : Z) : string :=
  utoa_aux (S (Z.to_nat (Z.log2 n))) n EmptyString.

Definition itoa (n : Z) : string :=
  if n <? 0 then String "-"%char (utoa (- n)) else utoa n.

(** ** [time.Duration] *)

Definition Duration : Type := Z.
Bind Scope Z_scope with Duration.

Definition Nanosecond : Z := 1.
Definition Microsecond : Z := 1000 * Nanosecond.
Definition Millisecond : Z := 1000 * Microsecond.
Definition Second : Z := 1000 * Millisecond.
Definition Minute : Z := 60 * Second.
Definition Hour : Z := 60 * Minute.

(** [d.Hours()]: whole hours plus the remainder as a fraction.  Go's [/] and
    [%] on integers truncate toward zero. *)
Definition Hours (d : Duration) : float :=
  (float64_of_Z (Z.quot d Hour) + float64_of_Z (Z.rem d Hour) / 3.6e12)%float.

(** [d.Minutes()]. *)
Definition Minutes (d : Duration) : float :=
  (float64_of_Z (Z.quot d Minute) + float64_of_Z (Z.rem d Minute) / 6e10)%float.

(** ** [time.ParseDuration] *)

Inductive DurationError : Type :=
| InvalidDuration (orig : string)
| MissingUnit (orig : string)
| UnknownUnit (unit orig : string).

(** [unitMap]. The two micro signs are U+00B5 and U+03BC. *)
Definition unitMap (u : string) : option Z :=
  if String.eqb u "ns" then Some Nanosecond
  else if String.eqb u "us" then Some Microsecond
  else if String.eqb u "µs" then Some Microsecond
  else if String.eqb u "μs" then Some Microsecond
  else if String.eqb u "ms" then Some Millisecond
  else if String.eqb u "s" then Some Second
  else if String.eqb u "m" then Some Minute
  else if String.eqb u "h" then Some Hour
  else None.

(** [leadingInt]: consumes the leading digits; [None] is [errLeadingInt]. *)
Fixpoint leadingInt (s : string) (x : Z) : option (Z * string) :=
  match s with
  | EmptyString => Some (x, EmptyString)
  | String c rest =>
      if negb (is_digit c) then Some (x, s)
      else if two63 / 10 <? x then None
      else
        let x' := u64 (u64 (x * 10 + byte_val c) - 48) in
        if two63 <? x' then None else leadingInt rest x'
  end.

(** [leadingFraction]: consumes the leading digits, keeps those that fit
    and the power of ten that scales them. *)
Fixpoint leadingFraction (s : string) (x : Z) (scale : float)
    (overflow : bool) : Z * float * string :=
  match s with
  | EmptyString => (x, scale, EmptyString)
  | String c rest =>
      if negb (is_digit c) then (x, scale, s)
      else if overflow then leadingFraction rest x scale true
      else if (two63 - 1) / 10 <? x then leadingFraction rest x scale true
      else
        let y := u64 (u64 (x * 10 + byte_val c) - 48) in
        if two63 <? y then leadingFraction rest x scale true
        else leadingFraction rest y (scale * 10)%float false
  end.

Definition starts_number (c : ascii) : bool :=
  Ascii.eqb c "."%char || is_digit c.

(** The unit: the bytes up to the next [.] or digit. *)
Fixpoint span_unit (s : string) : string * string :=
  match s with
  | EmptyString => (EmptyString, EmptyString)
  | String c rest =>
      if starts_number c then (EmptyString, s)
      else let '(u, t) := span_unit rest in (String c u, t)
  end.

(** The optional fraction: the digits after a period, their scale, whether
    there was any digit, and the rest. *)
Definition fraction_part (s : string) : Z * float * bool * string :=
  match s with
  | String "."%char s' =>
      let '(f, scale, rest) := leadingFraction s' 0 1%float false in
      (f, scale, negb (String.length s' =? String.length rest)%nat, rest)
  | _ => (0, 1%float, false, s)
  end.

(** The nanoseconds of one group, [v + f/scale] units; [None] on overflow.
    The fraction goes through [float64], as in the source. *)
Definition group_value (v f : Z) (scale : float) (unit : Z) : option Z :=
  if two63 / unit <? v then None
  else
    let v1 := u64 (v * unit) in
    if 0 <? f then
      let v2 :=
        u64 (v1 + u64_of_float64
                    (float64_of_Z f * (float64_of_Z unit / scale))%float) in
      if two63 <? v2 then None else Some v2
    else Some v1.

(** The body of [for s != ""]: one [number unit] group per turn, [d] the
    sum so far.  Every turn consumes at least one byte, so [length s] turns
    are enough. *)
Fixpoint parse_groups (fuel : nat) (orig s : string) (d : Z)
    : Z + DurationError :=
  match s with
  | EmptyString => inl d
  | String c0 _ =>
      match fuel with
      | O => inr (InvalidDuration orig)
      | S fuel' =>
          if negb (starts_number c0) then inr (InvalidDuration orig)
          else
            match leadingInt s 0 with
            | None => inr (InvalidDuration orig)
            | Some (v, s1) =>
                let pre := negb (String.length s =? String.length s1)%nat in
                let '(f, scale, post, s2) := fraction_part s1 in
                if negb pre && negb post then inr (InvalidDuration orig)
                else
                  let '(u, s3) := span_unit s2 in
                  match u with
                  | EmptyString => inr (MissingUnit orig)
                  | _ =>
                      match unitMap u with
                      | None => inr (UnknownUnit u orig)
                      | Some unit =>
                          match group_value v f scale unit with
                          | None => inr (InvalidDuration orig)
                          | Some v' =>
                              let d' := u64 (d + v') in
                              if two63 <? d' then inr (InvalidDuration orig)
                              else parse_groups fuel' orig s3 d'
                          end
                      end
                  end
            end
      end
  end.

Definition ParseDuration (orig : string) : Duration * option DurationError :=
  let '(neg, s) := strip_sign orig in
  if String.eqb s "0" then (0, None)
  else
    match s with
    | EmptyString => (0, Some (InvalidDuration orig))
    | _ =>
        match parse_groups (String.length s) orig s 0 with
        | inr e => (0, Some e)
        | inl d =>
            if neg then (neg64 (int64_of_u64 d), None)
            else if two63 - 1 <? d then (0, Some (InvalidDuration orig))
            else (int64_of_u64 d, None)
        end
    end.

(** ** The verb [%.2f]

    [strconv] prints the exact decimal expansion of the binary value,
    rounded at the second decimal with ties to the even digit. *)

Definition round_half_even (num den : Z) : Z :=
  let q := num / den in
  let r := num mod den in
  if 2 * r <? den then q
  else if den <? 2 * r then q + 1
  else if Z.even q then q else q + 1.

(** The magnitude [m * 2^e] in hundredths. *)
Definition hundredths (m : positive) (e : Z) : Z :=
  if 0 <=? e then Z.pos m * 2 ^ e * 100
  else round_half_even (Z.pos m * 100) (2 ^ (- e)).

Definition fixed2 (neg : bool) (h : Z) : string :=
  (if neg then "-" else "") ++
  utoa (h / 100) ++ "." ++
  String (digit_char (h / 10 mod 10)) (String (digit_char (h mod 10)) "").

Definition fmt_f2 (x : float) : string :=
  match Prim2SF x with
  | S754_nan => "NaN"
  | S754_infinity false => "+Inf"
  | S754_infinity true => "-Inf"
  | S754_zero neg => fixed2 neg 0
  | S754_finite neg m e => fixed2 neg (hundredths m e)
  end.

End GoLib.

(* ================================================================== *)
(** * Errors and the logger *)
(* ================================================================== *)

(** One constructor per format string of [fmt.Errorf] in the two packages,
    carrying the arguments of the format. *)
Inductive error : Type :=
| EInvalidPackage (data : string)
| EInvalidTraining (data : string)
| EParseSteps (text : string) (cause : GoLib.NumError)
| EStepsNotPositive (steps : Z)
| EParseDuration (cause : GoLib.DurationError)
| EWalkDuration (d : GoLib.Duration)
| EActivityDuration (d : GoLib.Duration)
| EWeightNotPositive (weight : float)
| EHeightNotPositive (height : float)
| EDurationNotPositive (d : GoLib.Duration)
| EUnknownTraining.

(** The format string of each error, as written in the source. *)
Definition error_format (e : error) : string :=
  match e with
  | EInvalidPackage _ => "invalid data format, expected 'steps,duration', got: %s"
  | EInvalidTraining _ => "invalid data format: %s"
  | EParseSteps _ _ => "parsing steps failed: %w"
  | EStepsNotPositive _ => "steps must be greater than zero, got: %d"
  | EParseDuration _ => "parsing duration failed: %w"
  | EWalkDuration _ => "walk duration must be greater than zero, got: %s"
  | EActivityDuration _ => "activity duration must be greater than zero, got: %s"
  | EWeightNotPositive _ => "weight must be greater than zero, got: %f"
  | EHeightNotPositive _ => "height must be greater than zero, got: %f"
  | EDurationNotPositive _ => "duration must be greater than zero, got: %s"
  | EUnknownTraining => "неизвестный тип тренировки"
  end.

(** The standard logger: the lines written so far, oldest first. *)
Definition Log : Type := list error.

Definition log_Println (e : error) (lg : Log) : Log := (lg ++ [e])%list.

(** The line feed of the report templates. *)
Definition nl : string := String "010"%char EmptyString.

(* ================================================================== *)
(** * Package [spentcalories] *)
(* ================================================================== *)

Module spentcalories.
Import GoLib.

Definition LenStep : float := 0.65.
Definition MInKm : Z := 1000.
Definition minInH : Z := 60.
Definition stepLengthCoefficient : float := 0.45.
Definition walkingCaloriesCoefficient : float := 0.5.

Definition running : string := "Бег".
Definition walking : string := "Ходьба".

Definition parseTraining (data : string)
    : Z * string * Duration * option error :=
  match strings_Split data with
  | [stepCount; activity; durationText] =>
      let '(count, err) := strconv_Atoi stepCount in
      match err with
      | Some e => (0, activity, 0, Some (EParseSteps stepCount e))
      | None =>
          if count <=? 0
          then (0, activity, 0, Some (EStepsNotPositive count))
          else
            let '(duration, err) := ParseDuration durationText in
            match err with
            | Some e => (0, activity, 0, Some (EParseDuration e))
            | None =>
                if duration <=? 0
                then (0, activity, 0, Some (EActivityDuration duration))
                else (count, activity, duration, None)
            end
      end
  | _ => (0, EmptyString, 0, Some (EInvalidTraining data))
  end.

Definition distance (steps : Z) (height : float) : float :=
  if (steps <=? 0) || (height <=? 0)%float then 0%float
  else (stepLengthCoefficient * height * float64_of_Z steps
        / float64_of_Z MInKm)%float.

Definition meanSpeed (steps : Z) (height : float) (duration : Duration)
    : float :=
  if (steps <=? 0) || (height <=? 0)%float || (duration <=? 0) then 0%float
  else (distance steps height / Hours duration)%float.

Definition RunningSpentCalories (steps : Z) (weight height : float)
    (duration : Duration) : float * option error :=
  if steps <=? 0 then (0%float, Some (EStepsNotPositive steps))
  else if (weight <=? 0)%float then (0%float, Some (EWeightNotPositive weight))
  else if (height <=? 0)%float then (0%float, Some (EHeightNotPositive height))
  else if duration <=? 0 then (0%float, Some (EDurationNotPositive duration))
  else ((weight * meanSpeed steps height duration * Minutes duration
         / float64_of_Z minInH)%float, None).

Definition WalkingSpentCalories (steps : Z) (weight height : float)
    (duration : Duration) : float * option error :=
  let '(calories, err) := RunningSpentCalories steps weight height duration in
  match err with
  | Some e => (0%float, Some e)
  | None => ((calories * walkingCaloriesCoefficient)%float, None)
  end.

(** The template of [TrainingInfo]'s [fmt.Sprintf]. *)
Definition training_report (activity : string) (hours dist speed calories : float)
    : string :=
  "Тип тренировки: " ++ activity ++ nl ++
  "Длительность: " ++ fmt_f2 hours ++ " ч." ++ nl ++
  "Дистанция: " ++ fmt_f2 dist ++ " км." ++ nl ++
  "Скорость: " ++ fmt_f2 speed ++ " км/ч" ++ nl ++
  "Сожгли калорий: " ++ fmt_f2 calories ++ nl.

(** The [switch activity] of [TrainingInfo]; [None] is its [default]. *)
Definition spent_calories (activity : string) (steps : Z)
    (weight height : float) (duration : Duration)
    : option (float * option error) :=
  if String.eqb activity running
  then Some (RunningSpentCalories steps weight height duration)
  else if String.eqb activity walking
  then Some (WalkingSpentCalories steps weight height duration)
  else None.

Definition TrainingInfo (data : string) (weight height : float) (lg : Log)
    : (string * option error) * Log :=
  if (weight <=? 0)%float
  then ((EmptyString, Some (EWeightNotPositive weight)), lg)
  else if (height <=? 0)%float
  then ((EmptyString, Some (EHeightNotPositive height)), lg)
  else
    let '(steps, activity, duration, err) := parseTraining data in
    match err with
    | Some e => ((EmptyString, Some e), log_Println e lg)
    | None =>
        match spent_calories activity steps weight height duration with
        | None => ((EmptyString, Some EUnknownTraining), lg)
        | Some (_, Some e) => ((EmptyString, Some e), lg)
        | Some (calories, None) =>
            let dist := distance steps height in
            let speed := meanSpeed steps height duration in
            ((training_report activity (Hours duration) dist speed calories,
              None), lg)
        end
    end.

End spentcalories.

(* ================================================================== *)
(** * Package [daysteps] *)
(* ================================================================== *)

Module daysteps.
Import GoLib.

Definition parsePackage (data : string) : Z * Duration * option error :=
  match strings_Split data with
  | [stepCount; durationText] =>
      let '(count, err) := strconv_Atoi stepCount in
      match err with
      | Some e => (0, 0, Some (EParseSteps stepCount e))
      | None =>
          if count <=? 0 then (0, 0, Some (EStepsNotPositive count))
          else
            let '(duration, err) := ParseDuration durationText in
            match err with
            | Some e => (0, 0, Some (EParseDuration e))
            | None =>
                if duration <=? 0 then (0, 0, Some (EWalkDuration duration))
                else (count, duration, None)
            end
      end
  | _ => (0, 0, Some (EInvalidPackage data))
  end.

(** The template of [DayActionInfo]'s [fmt.Sprintf]. *)
Definition day_report (steps : Z) (dist calories : float) : string :=
  "Количество шагов: " ++ itoa steps ++ "." ++ nl ++
  "Дистанция составила " ++ fmt_f2 dist ++ " км." ++ nl ++
  "Вы сожгли " ++ fmt_f2 calories ++ " ккал." ++ nl.

Definition DayActionInfo (data : string) (weight height : float) (lg : Log)
    : string * Log :=
  if (weight <=? 0)%float || (height <=? 0)%float then (EmptyString, lg)
  else
    let '(steps, duration, err) := parsePackage data in
    match err with
    | Some e => (EmptyString, log_Println e lg)
    | None =>
        let dist :=
          (float64_of_Z steps * spentcalories.LenStep
           / float64_of_Z spentcalories.MInKm)%float in
        let '(calories, err) :=
          spentcalories.WalkingSpentCalories steps weight height duration in
        match err with
        | Some _ => (EmptyString, lg)
        | None => (day_report steps dist calories, lg)
        end
    end.

End daysteps.

(* ================================================================== *)
(** * Predicates on strings used in the statements *)
(* ================================================================== *)

(** Does the separator of the records occur in [s]? *)
Fixpoint has_comma (s : string) : bool :=
  match s with
  | EmptyString => false
  | String c rest => Ascii.eqb c GoLib.comma || has_comma rest
  end.

Fixpoint all_digits (s : string) : bool :=
  match s with
  | EmptyString => true
  | String c rest => GoLib.is_digit c && all_digits rest
  end.

(** How many separators [s] holds. *)
Fixpoint count_commas (s : string) : nat :=
  match s with
  | EmptyString => O
  | String c rest =>
      if Ascii.eqb c GoLib.comma then S (count_commas rest)
      else count_commas rest
  end.

(** [sub] occurs in [s] ([strings.Contains(s, sub)]). *)
Definition contains (s sub : string) : Prop :=
  exists pre post, s = pre ++ sub ++ post.

(* ================================================================== *)
(** * Facts about binary64 comparison and multiplication *)
(* ================================================================== *)

Module FloatFacts.

(** A value above zero is not at or below zero (NaN is neither). *)
Lemma pos_not_le0 (x : float) :
  (0 <? x)%float = true -> (x <=? 0)%float = false.
Proof.
  rewrite ltb_spec, leb_spec.
  change (Prim2SF 0%float) with (S754_zero false).
  destruct (Prim2SF x) as [s | s | | s m e]; try destruct s; simpl;
    intros H; try discriminate H; reflexivity.
Qed.

Lemma SFmul_comm (p e : Z) (x y : spec_float) : SFmul p e x y = SFmul p e y x.
Proof.
  destruct x as [sx | sx | | sx mx ex], y as [sy | sy | | sy my ey]; simpl;
    try reflexivity; try (rewrite xorb_comm; reflexivity).
  rewrite xorb_comm, Pos.mul_comm, Z.add_comm. reflexivity.
Qed.

(** IEEE multiplication commutes. *)
Lemma mul_comm (x y : float) : (x * y)%float = (y * x)%float.
Proof.
  apply Prim2SF_inj. rewrite !mul_spec. apply SFmul_comm.
Qed.

End FloatFacts.

(* ================================================================== *)
(** * Properties of [spentcalories] *)
(* ================================================================== *)

Module CaloriesFacts.
Import GoLib spentcalories.

Lemma int_pos_not_le0 (n : Z) : 0 < n -> (n <=? 0) = false.
Proof. intros H. apply Z.leb_gt. exact H. Qed.

Lemma MInKm_float : float64_of_Z MInKm = 1000%float.
Proof. reflexivity. Qed.

Lemma minInH_float : float64_of_Z minInH = 60%float.
Proof. reflexivity. Qed.

(** C6. [distance steps height] is [0.45 * height * steps / 1000] when both
    arguments are above zero, and is exactly [0] when [steps <= 0] or
    [height <= 0]. *)
Theorem distance_spec (steps : Z) (height : float) :
  (0 < steps -> (0 <? height)%float = true ->
   distance steps height
   = (0.45 * height * float64_of_Z steps / 1000)%float) /\
  (steps <= 0 \/ (height <=? 0)%float = true ->
   distance steps height = 0%float).
Proof.
  unfold distance. split.
  - intros Hs Hh.
    rewrite (int_pos_not_le0 _ Hs), (FloatFacts.pos_not_le0 _ Hh).
    rewrite MInKm_float. reflexivity.
  - intros [Hs | Hh].
    + apply Z.leb_le in Hs. rewrite Hs. reflexivity.
    + rewrite Hh, orb_true_r. reflexivity.
Qed.

Lemma distance_spec_witness :
  distance 5000 175 = (0.45 * 175 * float64_of_Z 5000 / 1000)%float /\
  distance 0 175 = 0%float.
Proof.
  split.
  - apply (proj1 (distance_spec 5000 175)); [lia | reflexivity].
  - apply (proj2 (distance_spec 0 175)). left. lia.
Defined.

(** C7. [meanSpeed steps height duration] is [distance steps height] over
    the duration in hours when all three arguments are above zero, and is
    the constant [0], with no division, when any of them is at or below
    zero. *)
Theorem meanSpeed_spec (steps : Z) (height : float) (duration : Duration) :
  (0 < steps -> (0 <? height)%float = true -> 0 < duration ->
   meanSpeed steps height duration
   = (distance steps height / Hours duration)%float) /\
  (steps <= 0 \/ (height <=? 0)%float = true \/ duration <= 0 ->
   meanSpeed steps height duration = 0%float).
Proof.
  unfold meanSpeed. split.
  - intros Hs Hh Hd.
    rewrite (int_pos_not_le0 _ Hs), (FloatFacts.pos_not_le0 _ Hh),
      (int_pos_not_le0 _ Hd).
    reflexivity.
  - intros [Hs | [Hh | Hd]].
    + apply Z.leb_le in Hs. rewrite Hs. reflexivity.
    + rewrite Hh, orb_true_r. reflexivity.
    + apply Z.leb_le in Hd. rewrite Hd, orb_true_r. reflexivity.
Qed.

Lemma meanSpeed_spec_witness :
  meanSpeed 5000 175 1800000000000
  = (distance 5000 175 / Hours 1800000000000)%float /\
  meanSpeed 5000 175 0 = 0%float.
Proof.
  split.
  - apply (proj1 (meanSpeed_spec 5000 175 1800000000000));
      [lia | reflexivity | lia].
  - apply (proj2 (meanSpeed_spec 5000 175 0)). right. right. lia.
Defined.

(** The guards of [RunningSpentCalories] all pass exactly when it returns
    no error. *)
Lemma Running_no_error (steps : Z) (weight height : float) (duration : Duration) :
  0 < steps -> (weight <=? 0)%float = false -> (height <=? 0)%float = false ->
  0 < duration ->
  RunningSpentCalories steps weight height duration
  = ((weight * meanSpeed steps height duration * Minutes duration / 60)%float,
     None).
Proof.
  intros Hs Hw Hh Hd. unfold RunningSpentCalories.
  rewrite (int_pos_not_le0 _ Hs), Hw, Hh, (int_pos_not_le0 _ Hd).
  rewrite minInH_float. reflexivity.
Qed.

(** C1. [RunningSpentCalories] returns an error whenever [steps <= 0],
    [weight <= 0], [height <= 0] or [duration <= 0]; the checks run in that
    order and the first one violated gives the error; for inputs all above
    zero it returns [weight * meanSpeed * minutes / 60] and no error. *)
Theorem RunningSpentCalories_spec
    (steps : Z) (weight height : float) (duration : Duration) :
  let r := RunningSpentCalories steps weight height duration in
  (steps <= 0 \/ (weight <=? 0)%float = true \/
   (height <=? 0)%float = true \/ duration <= 0 -> snd r <> None) /\
  (steps <= 0 -> r = (0%float, Some (EStepsNotPositive steps))) /\
  (0 < steps -> (weight <=? 0)%float = true ->
   r = (0%float, Some (EWeightNotPositive weight))) /\
  (0 < steps -> (weight <=? 0)%float = false ->
   (height <=? 0)%float = true ->
   r = (0%float, Some (EHeightNotPositive height))) /\
  (0 < steps -> (weight <=? 0)%float = false ->
   (height <=? 0)%float = false -> duration <= 0 ->
   r = (0%float, Some (EDurationNotPositive duration))) /\
  (0 < steps -> (0 <? weight)%float = true -> (0 <? height)%float = true ->
   0 < duration ->
   r = ((weight * meanSpeed steps height duration * Minutes duration / 60)%float,
        None)).
Proof.
  cbv zeta. repeat split.
  - unfold RunningSpentCalories.
    intros H.
    destruct (steps <=? 0) eqn:Es; [simpl; discriminate |].
    destruct (weight <=? 0)%float eqn:Ew; [simpl; discriminate |].
    destruct (height <=? 0)%float eqn:Eh; [simpl; discriminate |].
    destruct (duration <=? 0) eqn:Ed; [simpl; discriminate |].
    apply Z.leb_gt in Es, Ed.
    destruct H as [H | [H | [H | H]]]; try discriminate H; lia.
  - intros Hs. unfold RunningSpentCalories.
    apply Z.leb_le in Hs. rewrite Hs. reflexivity.
  - intros Hs Hw. unfold RunningSpentCalories.
    rewrite (int_pos_not_le0 _ Hs), Hw. reflexivity.
  - intros Hs Hw Hh. unfold RunningSpentCalories.
    rewrite (int_pos_not_le0 _ Hs), Hw, Hh. reflexivity.
  - intros Hs Hw Hh Hd. unfold RunningSpentCalories.
    apply Z.leb_le in Hd.
    rewrite (int_pos_not_le0 _ Hs), Hw, Hh, Hd. reflexivity.
  - intros Hs Hw Hh Hd.
    apply Running_no_error; auto using FloatFacts.pos_not_le0.
Qed.

Lemma RunningSpentCalories_spec_witness :
  RunningSpentCalories 5000 70 175 1800000000000
  = ((70 * meanSpeed 5000 175 1800000000000 * Minutes 1800000000000 / 60)%float,
     None) /\
  RunningSpentCalories 5000 0 (-1) 0 = (0%float, Some (EWeightNotPositive 0)).
Proof.
  split.
  - apply (RunningSpentCalories_spec 5000 70 175 1800000000000);
      [lia | reflexivity | reflexivity | lia].
  - apply (RunningSpentCalories_spec 5000 0 (-1) 0); [lia | reflexivity].
Defined.

(** C2. [WalkingSpentCalories] returns the error of [RunningSpentCalories]
    on the same inputs when there is one, and otherwise half of its result;
    for inputs all above zero the walking calories are [0.5] times the
    running calories. *)
Theorem WalkingSpentCalories_spec
    (steps : Z) (weight height : float) (duration : Duration) :
  let r := RunningSpentCalories steps weight height duration in
  let w := WalkingSpentCalories steps weight height duration in
  snd w = snd r /\
  (snd r = None -> fst w = (0.5 * fst r)%float) /\
  (0 < steps -> (0 <? weight)%float = true -> (0 <? height)%float = true ->
   0 < duration ->
   snd r = None /\ w = ((0.5 * fst r)%float, None)).
Proof.
  cbv zeta. unfold WalkingSpentCalories.
  destruct (RunningSpentCalories steps weight height duration) as [c [e |]] eqn:E;
    simpl.
  - split; [reflexivity |]. split; [discriminate |].
    intros Hs Hw Hh Hd.
    rewrite Running_no_error in E by auto using FloatFacts.pos_not_le0.
    discriminate E.
  - unfold walkingCaloriesCoefficient. rewrite (FloatFacts.mul_comm c).
    repeat split; reflexivity.
Qed.

Lemma WalkingSpentCalories_spec_witness :
  WalkingSpentCalories 5000 70 175 1800000000000
  = ((0.5 * fst (RunningSpentCalories 5000 70 175 1800000000000))%float, None).
Proof.
  apply (WalkingSpentCalories_spec 5000 70 175 1800000000000);
    [lia | reflexivity | reflexivity | lia].
Defined.

End CaloriesFacts.

(* ================================================================== *)
(** * Properties of the two reports *)
(* ================================================================== *)

Module ReportFacts.
Import GoLib spentcalories daysteps.

(** What a successful [parsePackage] has established. *)
Lemma parsePackage_ok (data : string) (steps : Z) (duration : Duration) :
  parsePackage data = (steps, duration, None) ->
  0 < steps /\ 0 < duration /\
  exists a b, strings_Split data = [a; b] /\
              strconv_Atoi a = (steps, None) /\
              ParseDuration b = (duration, None).
Proof.
  unfold parsePackage.
  destruct (strings_Split data) as [| a [| b [| c l]]]; try discriminate.
  destruct (strconv_Atoi a) as [count [e |]] eqn:Ea; try discriminate.
  destruct (count <=? 0) eqn:Ec; try discriminate.
  destruct (ParseDuration b) as [d [e |]] eqn:Eb; try discriminate.
  destruct (d <=? 0) eqn:Ed; try discriminate.
  intros H. injection H as <- <-.
  apply Z.leb_gt in Ec, Ed.
  repeat split; try assumption. exists a, b. repeat split; assumption.
Qed.

(** The other direction: two fields that parse to values above zero. *)
Lemma parsePackage_fields (data a b : string) (steps : Z) (duration : Duration) :
  strings_Split data = [a; b] ->
  strconv_Atoi a = (steps, None) -> 0 < steps ->
  ParseDuration b = (duration, None) -> 0 < duration ->
  parsePackage data = (steps, duration, None).
Proof.
  intros Hsp Ha Hs Hb Hd. unfold parsePackage.
  rewrite Hsp, Ha, (CaloriesFacts.int_pos_not_le0 _ Hs), Hb,
    (CaloriesFacts.int_pos_not_le0 _ Hd).
  reflexivity.
Qed.

(** Past its two guards and a successful parse, [DayActionInfo] returns the
    filled template and leaves the log alone. *)
Lemma DayActionInfo_ok (data : string) (weight height : float) (lg : Log)
    (steps : Z) (duration : Duration) :
  (weight <=? 0)%float = false -> (height <=? 0)%float = false ->
  parsePackage data = (steps, duration, None) ->
  DayActionInfo data weight height lg
  = (day_report steps (float64_of_Z steps * 0.65 / 1000)%float
       (fst (WalkingSpentCalories steps weight height duration)), lg).
Proof.
  intros Hw Hh Hp. unfold DayActionInfo. rewrite Hw, Hh, Hp. simpl orb. cbv iota.
  destruct (parsePackage_ok _ _ _ Hp) as (Hs & Hd & _).
  unfold WalkingSpentCalories.
  rewrite (CaloriesFacts.Running_no_error _ _ _ _ Hs Hw Hh Hd).
  reflexivity.
Qed.

(** C3. [DayActionInfo] returns the empty string when [weight <= 0], when
    [height <= 0], when the record does not split into exactly two fields,
    when the step field is not an integer or is at or below zero, and when
    the duration field does not parse or is at or below zero. *)
Theorem DayActionInfo_empty (data : string) (weight height : float) (lg : Log) :
  (weight <=? 0)%float = true \/
  (height <=? 0)%float = true \/
  List.length (strings_Split data) <> 2%nat \/
  (exists a b, strings_Split data = [a; b] /\
     (snd (strconv_Atoi a) <> None \/ fst (strconv_Atoi a) <= 0 \/
      snd (ParseDuration b) <> None \/ fst (ParseDuration b) <= 0)) ->
  fst (DayActionInfo data weight height lg) = EmptyString.
Proof.
  intros H. unfold DayActionInfo.
  destruct (weight <=? 0)%float eqn:Ew; [reflexivity |].
  destruct (height <=? 0)%float eqn:Eh; [reflexivity |].
  simpl orb. cbv iota.
  destruct (parsePackage data) as [[steps duration] [e |]] eqn:Ep;
    [reflexivity |].
  exfalso.
  destruct (parsePackage_ok _ _ _ Ep) as (Hs & Hd & a & b & Hsp & Ha & Hb).
  destruct H as [H | [H | [H | (a' & b' & Hsp' & H)]]];
    try discriminate H.
  - apply H. rewrite Hsp. reflexivity.
  - rewrite Hsp in Hsp'. injection Hsp' as <- <-.
    rewrite Ha, Hb in H. simpl in H.
    destruct H as [H | [H | [H | H]]]; try lia; apply H; reflexivity.
Qed.

Lemma DayActionInfo_empty_witness :
  fst (DayActionInfo "abc,30m" 70 175 []) = EmptyString /\
  fst (DayActionInfo "5000,30m" 0 175 []) = EmptyString.
Proof.
  split.
  - apply (DayActionInfo_empty "abc,30m" 70 175 []).
    right. right. right. exists "abc", "30m". split; [reflexivity |].
    left. simpl. discriminate.
  - apply (DayActionInfo_empty "5000,30m" 0 175 []). left. reflexivity.
Defined.

(** C10. Once [weight > 0], [height > 0] and [parsePackage] has succeeded,
    both parsed values are above zero, [WalkingSpentCalories] returns no
    error, and [DayActionInfo] returns the filled template: its return on a
    calorie error is never taken. *)
Theorem Walking_after_parsePackage (data : string) (weight height : float)
    (steps : Z) (duration : Duration) :
  (0 <? weight)%float = true -> (0 <? height)%float = true ->
  parsePackage data = (steps, duration, None) ->
  0 < steps /\ 0 < duration /\
  snd (WalkingSpentCalories steps weight height duration) = None /\
  forall lg, fst (DayActionInfo data weight height lg)
             = day_report steps (float64_of_Z steps * 0.65 / 1000)%float
                 (fst (WalkingSpentCalories steps weight height duration)).
Proof.
  intros Hw Hh Hp.
  apply FloatFacts.pos_not_le0 in Hw, Hh.
  destruct (parsePackage_ok _ _ _ Hp) as (Hs & Hd & _).
  repeat split; try assumption.
  - unfold WalkingSpentCalories.
    rewrite (CaloriesFacts.Running_no_error _ _ _ _ Hs Hw Hh Hd). reflexivity.
  - intros lg. rewrite (DayActionInfo_ok _ _ _ lg _ _ Hw Hh Hp). reflexivity.
Qed.

Lemma Walking_after_parsePackage_witness :
  snd (WalkingSpentCalories 5000 70 175 1800000000000) = None.
Proof.
  apply (Walking_after_parsePackage "5000,30m" 70 175 5000 1800000000000);
    reflexivity.
Defined.

Lemma append_assoc (s t u : string) : (s ++ t) ++ u = s ++ t ++ u.
Proof.
  induction s as [| c s IH]; [reflexivity |].
  cbn [append]. rewrite IH. reflexivity.
Qed.

(** C5. The distance [DayActionInfo] reports is [steps * 0.65 / 1000],
    whatever the height: the string returned is the three lines written
    out below, and its second line, "Дистанция составила ... км.", holds
    that value to two decimals.  It is not the height-based [distance] that
    [TrainingInfo] reports. *)
Theorem DayActionInfo_distance (data : string) (weight height : float)
    (lg : Log) (steps : Z) (duration : Duration) :
  (weight <=? 0)%float = false -> (height <=? 0)%float = false ->
  parsePackage data = (steps, duration, None) ->
  let out := fst (DayActionInfo data weight height lg) in
  let km := (float64_of_Z steps * 0.65 / 1000)%float in
  out = "Количество шагов: " ++ itoa steps ++ "." ++ nl ++
        "Дистанция составила " ++ fmt_f2 km ++ " км." ++ nl ++
        "Вы сожгли "
        ++ fmt_f2 (fst (WalkingSpentCalories steps weight height duration))
        ++ " ккал." ++ nl /\
  contains out ("Дистанция составила " ++ fmt_f2 km ++ " км.") /\
  distance 5000 175 <> (float64_of_Z 5000 * 0.65 / 1000)%float.
Proof.
  intros Hw Hh Hp out km.
  assert (out = "Количество шагов: " ++ itoa steps ++ "." ++ nl ++
                "Дистанция составила " ++ fmt_f2 km ++ " км." ++ nl ++
                "Вы сожгли "
                ++ fmt_f2 (fst (WalkingSpentCalories steps weight height duration))
                ++ " ккал." ++ nl) as Hout.
  { unfold out. rewrite (DayActionInfo_ok _ _ _ lg _ _ Hw Hh Hp). reflexivity. }
  split; [exact Hout | split].
  - exists ("Количество шагов: " ++ itoa steps ++ "." ++ nl).
    exists (nl ++ "Вы сожгли "
            ++ fmt_f2 (fst (WalkingSpentCalories steps weight height duration))
            ++ " ккал." ++ nl).
    rewrite Hout. rewrite !append_assoc. reflexivity.
  - intros H. apply (f_equal Prim2SF) in H. vm_compute in H. discriminate H.
Qed.

Lemma DayActionInfo_distance_witness :
  contains (fst (DayActionInfo "5000,30m" 70 175 []))
    ("Дистанция составила " ++ fmt_f2 (float64_of_Z 5000 * 0.65 / 1000)%float
     ++ " км.").
Proof.
  apply (DayActionInfo_distance "5000,30m" 70 175 [] 5000 1800000000000);
    reflexivity.
Defined.

(** The string [DayActionInfo] returns does not depend on the log. *)
Lemma DayActionInfo_log (data : string) (weight height : float) (lg1 lg2 : Log) :
  fst (DayActionInfo data weight height lg1)
  = fst (DayActionInfo data weight height lg2).
Proof.
  unfold DayActionInfo.
  destruct ((weight <=? 0)%float || (height <=? 0)%float); [reflexivity |].
  destruct (parsePackage data) as [[steps duration] [e |]]; [reflexivity |].
  destruct (WalkingSpentCalories steps weight height duration) as [c [e |]];
    reflexivity.
Qed.

(** Nor does the pair [TrainingInfo] returns. *)
Lemma TrainingInfo_log (data : string) (weight height : float) (lg1 lg2 : Log) :
  fst (TrainingInfo data weight height lg1)
  = fst (TrainingInfo data weight height lg2).
Proof.
  unfold TrainingInfo.
  destruct (weight <=? 0)%float; [reflexivity |].
  destruct (height <=? 0)%float; [reflexivity |].
  destruct (parseTraining data) as [[[steps activity] duration] [e |]];
    [reflexivity |].
  destruct (spent_calories activity steps weight height duration)
    as [[c [e |]] |]; reflexivity.
Qed.

End ReportFacts.

(* ================================================================== *)
(** * Dispatch on the activity label *)
(* ================================================================== *)

Module TrainingFacts.
Import GoLib spentcalories.

(** Three fields that parse to values above zero. *)
Lemma parseTraining_fields (data a label b : string) (steps : Z)
    (duration : Duration) :
  strings_Split data = [a; label; b] ->
  strconv_Atoi a = (steps, None) -> 0 < steps ->
  ParseDuration b = (duration, None) -> 0 < duration ->
  parseTraining data = (steps, label, duration, None).
Proof.
  intros Hsp Ha Hs Hb Hd. unfold parseTraining.
  rewrite Hsp, Ha, (CaloriesFacts.int_pos_not_le0 _ Hs), Hb,
    (CaloriesFacts.int_pos_not_le0 _ Hd).
  reflexivity.
Qed.

(** A non-nil error always comes with the empty string. *)
Lemma TrainingInfo_error_empty (data : string) (weight height : float)
    (lg : Log) :
  snd (fst (TrainingInfo data weight height lg)) <> None ->
  fst (fst (TrainingInfo data weight height lg)) = EmptyString.
Proof.
  unfold TrainingInfo.
  destruct (weight <=? 0)%float; [reflexivity |].
  destruct (height <=? 0)%float; [reflexivity |].
  destruct (parseTraining data) as [[[steps activity] duration] [e |]];
    [reflexivity |].
  destruct (spent_calories activity steps weight height duration)
    as [[c [e |]] |]; try reflexivity.
  simpl. intros H. exfalso. apply H. reflexivity.
Qed.

(** C4. On a record of three fields whose steps and duration parse to
    values above zero, with weight and height above zero, [TrainingInfo]
    returns the five lines written out below with a nil error: for the
    label "Бег" the last line holds the running calories
    [weight * meanSpeed * minutes / 60], for the label "Ходьба" the walking
    calories, that value times 0.5.  For any other label it returns the
    empty string and the unknown-training error; and on every input a
    non-nil error comes with the empty string. *)
Theorem TrainingInfo_dispatch :
  (forall (data a label b : string) (weight height : float) (lg : Log)
          (steps : Z) (duration : Duration),
      (0 <? weight)%float = true -> (0 <? height)%float = true ->
      strings_Split data = [a; label; b] ->
      strconv_Atoi a = (steps, None) -> 0 < steps ->
      ParseDuration b = (duration, None) -> 0 < duration ->
      let kcal := (weight * meanSpeed steps height duration
                   * Minutes duration / 60)%float in
      let report (calories : float) :=
        "Тип тренировки: " ++ label ++ nl ++
        "Длительность: " ++ fmt_f2 (Hours duration) ++ " ч." ++ nl ++
        "Дистанция: " ++ fmt_f2 (distance steps height) ++ " км." ++ nl ++
        "Скорость: " ++ fmt_f2 (meanSpeed steps height duration) ++ " км/ч"
        ++ nl ++
        "Сожгли калорий: " ++ fmt_f2 calories ++ nl in
      (label = "Бег" ->
       RunningSpentCalories steps weight height duration = (kcal, None) /\
       fst (TrainingInfo data weight height lg) = (report kcal, None)) /\
      (label = "Ходьба" ->
       WalkingSpentCalories steps weight height duration
       = ((kcal * 0.5)%float, None) /\
       fst (TrainingInfo data weight height lg)
       = (report (kcal * 0.5)%float, None)) /\
      (label <> "Бег" -> label <> "Ходьба" ->
       fst (TrainingInfo data weight height lg)
       = (EmptyString, Some EUnknownTraining) /\
       error_format EUnknownTraining = "неизвестный тип тренировки")) /\
  (forall (data : string) (weight height : float) (lg : Log),
      snd (fst (TrainingInfo data weight height lg)) <> None ->
      fst (fst (TrainingInfo data weight height lg)) = EmptyString).
Proof.
  split; [| exact TrainingInfo_error_empty].
  intros data a label b weight height lg steps duration
    Hw Hh Hsp Ha Hs Hb Hd kcal report.
  apply FloatFacts.pos_not_le0 in Hw, Hh.
  pose proof (parseTraining_fields _ _ _ _ _ _ Hsp Ha Hs Hb Hd) as Hp.
  pose proof (CaloriesFacts.Running_no_error _ _ _ _ Hs Hw Hh Hd) as Hr.
  fold kcal in Hr.
  assert (WalkingSpentCalories steps weight height duration
          = ((kcal * 0.5)%float, None)) as Hk.
  { unfold WalkingSpentCalories. rewrite Hr. reflexivity. }
  unfold TrainingInfo. rewrite Hw, Hh, Hp. unfold spent_calories.
  split; [| split].
  - intros ->. split; [exact Hr |].
    change (String.eqb "Бег" running) with true. cbv iota.
    rewrite Hr. reflexivity.
  - intros ->. split; [exact Hk |].
    change (String.eqb "Ходьба" running) with false.
    change (String.eqb "Ходьба" walking) with true. cbv iota.
    rewrite Hk. reflexivity.
  - intros H1 H2. apply String.eqb_neq in H1, H2. unfold running, walking.
    rewrite H1, H2. split; reflexivity.
Qed.

Lemma TrainingInfo_dispatch_witness :
  fst (TrainingInfo "5000,Бег,30m" 70 175 [])
  = ("Тип тренировки: Бег" ++ nl ++
     "Длительность: 0.50 ч." ++ nl ++
     "Дистанция: 393.75 км." ++ nl ++
     "Скорость: 787.50 км/ч" ++ nl ++
     "Сожгли калорий: 27562.50" ++ nl, None) /\
  fst (TrainingInfo "5000,Ходьба,30m" 70 175 [])
  = ("Тип тренировки: Ходьба" ++ nl ++
     "Длительность: 0.50 ч." ++ nl ++
     "Дистанция: 393.75 км." ++ nl ++
     "Скорость: 787.50 км/ч" ++ nl ++
     "Сожгли калорий: 13781.25" ++ nl, None) /\
  fst (TrainingInfo "5000,Плавание,30m" 70 175 [])
  = (EmptyString, Some EUnknownTraining).
Proof.
  split; [| split].
  - rewrite (proj2 (proj1 (proj1 TrainingInfo_dispatch "5000,Бег,30m" "5000"
               "Бег" "30m" 70%float 175%float [] 5000 1800000000000
               eq_refl eq_refl eq_refl eq_refl eq_refl eq_refl eq_refl)
               eq_refl)).
    vm_compute. reflexivity.
  - rewrite (proj2 (proj1 (proj2 (proj1 TrainingInfo_dispatch
               "5000,Ходьба,30m" "5000" "Ходьба" "30m" 70%float 175%float []
               5000 1800000000000
               eq_refl eq_refl eq_refl eq_refl eq_refl eq_refl eq_refl))
               eq_refl)).
    vm_compute. reflexivity.
  - apply (proj1 TrainingInfo_dispatch "5000,Плавание,30m" "5000" "Плавание"
             "30m" 70%float 175%float [] 5000 1800000000000);
      try reflexivity; try lia; discriminate.
Defined.

End TrainingFacts.

(* ================================================================== *)
(** * Decimal text: printing, parsing and splitting *)
(* ================================================================== *)

Module DecimalFacts.
Import GoLib.

Lemma digit_char_byte (d : Z) :
  0 <= d < 10 -> byte_val (digit_char d) = 48 + d.
Proof.
  intros H.
  assert (d = 0 \/ d = 1 \/ d = 2 \/ d = 3 \/ d = 4 \/
          d = 5 \/ d = 6 \/ d = 7 \/ d = 8 \/ d = 9) as Hd by lia.
  repeat (destruct Hd as [-> | Hd]; [reflexivity |]).
  subst d. reflexivity.
Qed.

Lemma digit_char_is_digit (d : Z) :
  0 <= d < 10 -> is_digit (digit_char d) = true.
Proof.
  intros H. unfold is_digit. rewrite (digit_char_byte d H).
  apply andb_true_intro. split; apply Z.leb_le; lia.
Qed.

Lemma is_digit_not_comma (c : ascii) :
  is_digit c = true -> Ascii.eqb c comma = false.
Proof.
  intros H. destruct (Ascii.eqb_spec c comma) as [-> | _];
    [discriminate H | reflexivity].
Qed.

Lemma all_digits_no_comma (s : string) :
  all_digits s = true -> has_comma s = false.
Proof.
  induction s as [| c s IH]; simpl; [reflexivity |].
  intros H. apply andb_prop in H as [Hc Hs].
  rewrite (is_digit_not_comma c Hc), (IH Hs). reflexivity.
Qed.

Lemma has_comma_app (s t : string) :
  has_comma (s ++ t) = has_comma s || has_comma t.
Proof.
  induction s as [| c s IH]; simpl; [reflexivity |].
  rewrite IH, orb_assoc. reflexivity.
Qed.

(** ** [utoa] writes digits only, and at least one *)

Lemma utoa_aux_digits (fuel : nat) (n : Z) (acc : string) :
  0 <= n -> all_digits acc = true -> all_digits (utoa_aux fuel n acc) = true.
Proof.
  revert n acc. induction fuel as [| fuel IH]; intros n acc Hn Hacc; simpl;
    [exact Hacc |].
  assert (all_digits (String (digit_char (n mod 10)) acc) = true) as Hacc'.
  { simpl. rewrite digit_char_is_digit, Hacc; [reflexivity |].
    apply Z.mod_pos_bound. lia. }
  destruct (n <? 10); [exact Hacc' |].
  apply IH; [apply Z.div_pos; lia | exact Hacc'].
Qed.

Lemma utoa_digits (n : Z) : 0 <= n -> all_digits (utoa n) = true.
Proof. intros H. apply utoa_aux_digits; [exact H | reflexivity]. Qed.

Lemma utoa_aux_nonempty (fuel : nat) (n : Z) (acc : string) :
  utoa_aux (S fuel) n acc <> EmptyString.
Proof.
  revert n acc. induction fuel as [| fuel IH]; intros n acc.
  - simpl. destruct (n <? 10); discriminate.
  - change (utoa_aux (S (S fuel)) n acc)
      with (if n <? 10 then String (digit_char (n mod 10)) acc
            else utoa_aux (S fuel) (n / 10)
                   (String (digit_char (n mod 10)) acc)).
    destruct (n <? 10); [discriminate | apply IH].
Qed.

(** The text of a non-negative number starts with a digit. *)
Lemma utoa_head (n : Z) :
  0 <= n ->
  exists c rest, utoa n = String c rest /\ is_digit c = true /\
                 all_digits rest = true.
Proof.
  intros H. pose proof (utoa_digits n H) as Hd.
  destruct (utoa n) as [| c rest] eqn:E.
  - exfalso. exact (utoa_aux_nonempty _ _ _ E).
  - simpl in Hd. apply andb_prop in Hd as [Hc Hr]. exists c, rest. auto.
Qed.

(** ** Parsing what [utoa] wrote *)

Lemma utoa_fuel (n : Z) : 0 <= n -> 0 <= n < 2 ^ Z.of_nat (S (Z.to_nat (Z.log2 n))).
Proof.
  intros H. split; [exact H |].
  rewrite Nat2Z.inj_succ, Z2Nat.id by apply Z.log2_nonneg.
  destruct (Z.eq_dec n 0) as [-> | Hn]; [reflexivity |].
  apply Z.log2_spec. lia.
Qed.

(** Reading the last digit of [n] after the digits of [n / 10]. *)
Lemma parse_uint_step (n : Z) (acc : string) :
  0 <= n <= maxUint64 ->
  parse_uint (String (digit_char (n mod 10)) acc) (n / 10) = parse_uint acc n.
Proof.
  intros [H0 Hmax]. unfold maxUint64 in Hmax.
  assert (0 <= n mod 10 < 10) as Hm by (apply Z.mod_pos_bound; lia).
  pose proof (Z.div_mod n 10 ltac:(lia)) as Hdm.
  cbn [parse_uint]. unfold digit_val.
  rewrite (digit_char_is_digit _ Hm), (digit_char_byte _ Hm). cbn [negb].
  assert ((maxUint64 / 10 + 1 <=? n / 10) = false) as ->.
  { apply Z.leb_gt. change (maxUint64 / 10 + 1) with 1844674407370955162.
    apply Z.div_lt_upper_bound; lia. }
  replace (n / 10 * 10 + (48 + n mod 10 - 48)) with n by lia.
  assert ((maxUint64 <? n) = false) as ->
    by (apply Z.ltb_ge; unfold maxUint64; lia).
  reflexivity.
Qed.

Lemma parse_uint_utoa_aux (fuel : nat) (n : Z) (acc : string) :
  0 <= n < 2 ^ Z.of_nat fuel -> n <= maxUint64 ->
  parse_uint (utoa_aux fuel n acc) 0 = parse_uint acc n.
Proof.
  revert n acc. induction fuel as [| fuel IH]; intros n acc Hn Hmax.
  - simpl in Hn. assert (n = 0) as -> by lia. reflexivity.
  - rewrite Nat2Z.inj_succ, Z.pow_succ_r in Hn by lia.
    cbn [utoa_aux]. destruct (n <? 10) eqn:E.
    + apply Z.ltb_lt in E. rewrite <- (parse_uint_step n acc) by lia.
      rewrite (Z.div_small n 10) by lia. reflexivity.
    + apply Z.ltb_ge in E.
      assert (0 <= n / 10 <= n) as Hq.
      { split; [apply Z.div_pos; lia |].
        apply Z.div_le_upper_bound; lia. }
      rewrite IH; [apply parse_uint_step; lia | | lia].
      split; [lia | apply Z.div_lt_upper_bound; lia].
Qed.

Lemma parse_uint_utoa (n : Z) :
  0 <= n <= maxUint64 -> parse_uint (utoa n) 0 = inl n.
Proof.
  intros [H0 Hmax]. unfold utoa.
  rewrite parse_uint_utoa_aux; [reflexivity | apply utoa_fuel; exact H0 | exact Hmax].
Qed.

Lemma itoa_nonneg (n : Z) : 0 <= n -> itoa n = utoa n.
Proof.
  intros H. unfold itoa. apply Z.ltb_ge in H. rewrite H. reflexivity.
Qed.

(** A text that starts with a digit carries no sign. *)
Lemma strip_sign_digit (c : ascii) (rest : string) :
  is_digit c = true -> strip_sign (String c rest) = (false, String c rest).
Proof.
  intros Hc.
  destruct c as [[] [] [] [] [] [] [] []]; vm_compute in Hc;
    try discriminate Hc; reflexivity.
Qed.

(** [strconv.Atoi] reads back what [%d] printed, for every [int] at or
    above zero. *)
Lemma Atoi_itoa (n : Z) :
  0 <= n <= maxInt64 -> strconv_Atoi (itoa n) = (n, None).
Proof.
  intros [H0 Hmax]. unfold maxInt64 in Hmax. rewrite (itoa_nonneg n H0).
  destruct (utoa_head n H0) as (c & rest & E & Hc & _).
  pose proof (parse_uint_utoa n ltac:(unfold maxUint64; lia)) as Hp.
  rewrite E in *. unfold strconv_Atoi.
  rewrite (strip_sign_digit c rest Hc), Hp. cbn [negb andb].
  assert ((two63 <=? n) = false) as ->
    by (apply Z.leb_gt; unfold two63; lia).
  reflexivity.
Qed.

(** ** [strings.Split] on a record of two fields *)

Lemma Split_no_comma (s : string) :
  has_comma s = false -> strings_Split s = [s].
Proof.
  induction s as [| c s IH]; simpl; [reflexivity |].
  intros H. apply orb_false_elim in H as [Hc Hs].
  rewrite Hc, (IH Hs). reflexivity.
Qed.

Lemma Split_app (a b : string) :
  has_comma a = false ->
  strings_Split (a ++ String comma b) = a :: strings_Split b.
Proof.
  induction a as [| c a IH]; simpl; [reflexivity |].
  intros H. apply orb_false_elim in H as [Hc Ha].
  rewrite Hc, (IH Ha). reflexivity.
Qed.

Lemma Split_two (a b : string) :
  has_comma a = false -> has_comma b = false ->
  strings_Split (a ++ "," ++ b) = [a; b].
Proof.
  intros Ha Hb. change ("," ++ b) with (String comma b).
  rewrite (Split_app a b Ha), (Split_no_comma b Hb). reflexivity.
Qed.

End DecimalFacts.

(* ================================================================== *)
(** * Texts [time.ParseDuration] accepts *)
(* ================================================================== *)

Module DurationFacts.
Import GoLib DecimalFacts.

(** ** An accepted text holds no comma *)

Lemma leadingInt_comma (s : string) (x v : Z) (s1 : string) :
  leadingInt s x = Some (v, s1) -> has_comma s = has_comma s1.
Proof.
  revert x. induction s as [| c s IH]; intros x; cbn [leadingInt].
  - intros H. injection H as _ <-. reflexivity.
  - destruct (is_digit c) eqn:Ec; cbn [negb].
    + destruct (two63 / 10 <? x); [discriminate |].
      destruct (two63 <? u64 (u64 (x * 10 + byte_val c) - 48));
        [discriminate |].
      intros H. cbn [has_comma].
      rewrite (is_digit_not_comma c Ec). exact (IH _ H).
    + intros H. injection H as _ <-. reflexivity.
Qed.

Lemma leadingFraction_comma (s : string) (x : Z) (scale : float) (o : bool)
    (f : Z) (scale' : float) (s2 : string) :
  leadingFraction s x scale o = (f, scale', s2) -> has_comma s = has_comma s2.
Proof.
  revert x scale o. induction s as [| c s IH]; intros x scale o;
    cbn [leadingFraction].
  - intros H. injection H as _ _ <-. reflexivity.
  - destruct (is_digit c) eqn:Ec; cbn [negb].
    + cbn [has_comma]. rewrite (is_digit_not_comma c Ec). cbn [orb].
      destruct o; [apply IH |].
      destruct ((two63 - 1) / 10 <? x); [apply IH |].
      destruct (two63 <? u64 (u64 (x * 10 + byte_val c) - 48)); apply IH.
    + intros H. injection H as _ _ <-. reflexivity.
Qed.

Lemma fraction_part_comma (s : string) (f : Z) (scale : float) (post : bool)
    (s2 : string) :
  fraction_part s = (f, scale, post, s2) -> has_comma s = has_comma s2.
Proof.
  destruct s as [| c s]; [intros H; injection H as _ _ _ <-; reflexivity |].
  destruct (Ascii.eqb_spec c "."%char) as [-> | Hc].
  - cbn [fraction_part].
    destruct (leadingFraction s 0 1 false) as [[f' scale'] rest] eqn:E.
    intros H. injection H as _ _ _ <-.
    cbn [has_comma]. rewrite <- (leadingFraction_comma _ _ _ _ _ _ _ E).
    reflexivity.
  - assert (fraction_part (String c s) = (0, 1%float, false, String c s)) as ->.
    { destruct c as [[] [] [] [] [] [] [] []]; try reflexivity.
      exfalso. apply Hc. reflexivity. }
    intros H. injection H as _ _ _ <-. reflexivity.
Qed.

Lemma span_unit_comma (s u t : string) :
  span_unit s = (u, t) -> has_comma s = has_comma u || has_comma t.
Proof.
  revert u t. induction s as [| c s IH]; intros u t; cbn [span_unit].
  - intros H. injection H as <- <-. reflexivity.
  - destruct (starts_number c).
    + intros H. injection H as <- <-. reflexivity.
    + destruct (span_unit s) as [u' t'].
      intros H. injection H as <- <-.
      cbn [has_comma]. rewrite (IH u' t' eq_refl), orb_assoc. reflexivity.
Qed.

Lemma unitMap_comma (u : string) (unit : Z) :
  unitMap u = Some unit -> has_comma u = false.
Proof.
  unfold unitMap.
  repeat match goal with
         | |- context [String.eqb u ?k] =>
             destruct (String.eqb_spec u k) as [-> | _]; [reflexivity |]
         end.
  discriminate.
Qed.

Lemma parse_groups_comma (orig : string) (fuel : nat) (s : string) (d0 d : Z) :
  parse_groups fuel orig s d0 = inl d -> has_comma s = false.
Proof.
  revert s d0. induction fuel as [| fuel IH]; intros s d0;
    (destruct s as [| c0 r]; [reflexivity |]); cbn [parse_groups];
    [discriminate |].
  destruct (starts_number c0); cbn [negb]; [| discriminate].
  destruct (leadingInt (String c0 r) 0) as [[v s1] |] eqn:EL; [| discriminate].
  destruct (fraction_part s1) as [[[f scale] post] s2] eqn:EF.
  destruct (negb (negb (String.length (String c0 r) =? String.length s1)%nat)
            && negb post); [discriminate |].
  destruct (span_unit s2) as [u s3] eqn:EU.
  destruct (unitMap u) as [unit |] eqn:EM;
    [| destruct u; discriminate].
  destruct (group_value v f scale unit) as [v' |];
    [| destruct u; discriminate].
  destruct (two63 <? u64 (d0 + v')); [destruct u; discriminate |].
  intros H.
  assert (has_comma s3 = false) as H3.
  { destruct u; [discriminate H | exact (IH _ _ H)]. }
  rewrite (leadingInt_comma _ _ _ _ EL), (fraction_part_comma _ _ _ _ _ EF),
    (span_unit_comma _ _ _ EU), (unitMap_comma _ _ EM), H3.
  reflexivity.
Qed.

Lemma strip_sign_comma (orig : string) (neg : bool) (s : string) :
  strip_sign orig = (neg, s) -> has_comma orig = has_comma s.
Proof.
  destruct orig as [| c r]; [intros H; injection H as _ <-; reflexivity |].
  destruct (Ascii.eqb_spec c "-"%char) as [-> | Hm];
    [intros H; injection H as _ <-; reflexivity |].
  destruct (Ascii.eqb_spec c "+"%char) as [-> | Hp];
    [intros H; injection H as _ <-; reflexivity |].
  assert (strip_sign (String c r) = (false, String c r)) as ->.
  { destruct c as [[] [] [] [] [] [] [] []]; try reflexivity; exfalso;
      first [apply Hm; reflexivity | apply Hp; reflexivity]. }
  intros H. injection H as _ <-. reflexivity.
Qed.

(** Every text [ParseDuration] accepts is free of commas. *)
Lemma ParseDuration_no_comma (text : string) (d : Duration) :
  ParseDuration text = (d, None) -> has_comma text = false.
Proof.
  unfold ParseDuration.
  destruct (strip_sign text) as [neg s] eqn:ES.
  rewrite (strip_sign_comma _ _ _ ES).
  destruct (String.eqb_spec s "0") as [-> | _]; [reflexivity |].
  destruct s as [| c r]; [discriminate |].
  destruct (parse_groups (String.length (String c r)) text (String c r) 0)
    as [n | e] eqn:EG; [| discriminate].
  intros _. exact (parse_groups_comma _ _ _ _ _ EG).
Qed.

(** ** The turns of [parse_groups] never run out *)

Lemma leadingInt_length (s : string) (x v : Z) (s1 : string) :
  leadingInt s x = Some (v, s1) -> (String.length s1 <= String.length s)%nat.
Proof.
  revert x. induction s as [| c s IH]; intros x; cbn [leadingInt].
  - intros H. injection H as _ <-. apply Nat.le_refl.
  - destruct (negb (is_digit c)).
    + intros H. injection H as _ <-. apply Nat.le_refl.
    + destruct (two63 / 10 <? x); [discriminate |].
      destruct (two63 <? u64 (u64 (x * 10 + byte_val c) - 48));
        [discriminate |].
      intros H. apply IH in H. cbn [String.length]. lia.
Qed.

Lemma leadingFraction_length (s : string) (x : Z) (scale : float) (o : bool)
    (f : Z) (scale' : float) (s2 : string) :
  leadingFraction s x scale o = (f, scale', s2) ->
  (String.length s2 <= String.length s)%nat.
Proof.
  revert x scale o. induction s as [| c s IH]; intros x scale o;
    cbn [leadingFraction].
  - intros H. injection H as _ _ <-. apply Nat.le_refl.
  - destruct (negb (is_digit c)).
    + intros H. injection H as _ _ <-. apply Nat.le_refl.
    + assert (forall x1 sc1 o1,
                 leadingFraction s x1 sc1 o1 = (f, scale', s2) ->
                 (String.length s2 <= String.length (String c s))%nat) as Hs.
      { intros x1 sc1 o1 H. apply IH in H. cbn [String.length]. lia. }
      destruct o; [apply Hs |].
      destruct ((two63 - 1) / 10 <? x); [apply Hs |].
      destruct (two63 <? u64 (u64 (x * 10 + byte_val c) - 48)); apply Hs.
Qed.

Lemma fraction_part_length (s : string) (f : Z) (scale : float) (post : bool)
    (s2 : string) :
  fraction_part s = (f, scale, post, s2) ->
  (String.length s2 <= String.length s)%nat.
Proof.
  destruct s as [| c s]; [intros H; injection H as _ _ _ <-; apply Nat.le_refl |].
  destruct (Ascii.eqb_spec c "."%char) as [-> | Hc].
  - cbn [fraction_part].
    destruct (leadingFraction s 0 1 false) as [[f' scale'] rest] eqn:E.
    intros H. injection H as _ _ _ <-.
    apply leadingFraction_length in E. cbn [String.length]. lia.
  - assert (fraction_part (String c s) = (0, 1%float, false, String c s)) as ->.
    { destruct c as [[] [] [] [] [] [] [] []]; try reflexivity.
      exfalso. apply Hc. reflexivity. }
    intros H. injection H as _ _ _ <-. apply Nat.le_refl.
Qed.

Lemma span_unit_length (s u t : string) :
  span_unit s = (u, t) ->
  String.length s = (String.length u + String.length t)%nat.
Proof.
  revert u t. induction s as [| c s IH]; intros u t; cbn [span_unit].
  - intros H. injection H as <- <-. reflexivity.
  - destruct (starts_number c).
    + intros H. injection H as <- <-. reflexivity.
    + destruct (span_unit s) as [u' t'].
      intros H. injection H as <- <-.
      cbn [String.length]. rewrite (IH u' t' eq_refl). reflexivity.
Qed.

(** Any fuel of at least [length s] gives the same result: the bound
    [length s] that [ParseDuration] passes is never the cause of an error. *)
Lemma parse_groups_fuel (orig : string) (fuel fuel' : nat) (s : string) (d : Z) :
  (String.length s <= fuel)%nat -> (String.length s <= fuel')%nat ->
  parse_groups fuel orig s d = parse_groups fuel' orig s d.
Proof.
  revert fuel' s d. induction fuel as [| fuel IH]; intros fuel' s d;
    (destruct s as [| c0 r]; [destruct fuel'; reflexivity |]);
    cbn [String.length]; intros Hf Hf'; [lia |].
  destruct fuel' as [| fuel']; [lia |].
  cbn [parse_groups].
  destruct (negb (starts_number c0)); [reflexivity |].
  destruct (leadingInt (String c0 r) 0) as [[v s1] |] eqn:EL; [| reflexivity].
  destruct (fraction_part s1) as [[[f scale] post] s2] eqn:EF.
  destruct (negb (negb (String.length (String c0 r) =? String.length s1)%nat)
            && negb post); [reflexivity |].
  destruct (span_unit s2) as [u s3] eqn:EU.
  destruct u as [| cu u]; [reflexivity |].
  destruct (unitMap (String cu u)) as [unit |]; [| reflexivity].
  destruct (group_value v f scale unit) as [v' |]; [| reflexivity].
  destruct (two63 <? u64 (d + v')); [reflexivity |].
  apply leadingInt_length in EL. apply fraction_part_length in EF.
  apply span_unit_length in EU. cbn [String.length] in EL, EU.
  apply IH; lia.
Qed.

(** ** Every duration above zero has an accepted text *)

Lemma u64_small (z : Z) : 0 <= z < 18446744073709551616 -> u64 z = z.
Proof. intros H. unfold u64. apply Z.mod_small. exact H. Qed.

Lemma utoa_aux_app (fuel : nat) (n : Z) (acc t : string) :
  utoa_aux fuel n acc ++ t = utoa_aux fuel n (acc ++ t).
Proof.
  revert n acc. induction fuel as [| fuel IH]; intros n acc; simpl;
    [reflexivity |].
  destruct (n <? 10); [reflexivity | apply IH].
Qed.

Lemma leadingInt_step (n : Z) (acc : string) :
  0 <= n <= two63 ->
  leadingInt (String (digit_char (n mod 10)) acc) (n / 10) = leadingInt acc n.
Proof.
  intros [H0 Hmax]. unfold two63 in Hmax.
  assert (0 <= n mod 10 < 10) as Hm by (apply Z.mod_pos_bound; lia).
  pose proof (Z.div_mod n 10 ltac:(lia)) as Hdm.
  assert (0 <= n / 10) as Hq by (apply Z.div_pos; lia).
  cbn [leadingInt].
  rewrite (digit_char_is_digit _ Hm), (digit_char_byte _ Hm). cbn [negb].
  assert ((two63 / 10 <? n / 10) = false) as ->.
  { apply Z.ltb_ge. apply Z.div_le_mono; unfold two63; lia. }
  rewrite (u64_small (n / 10 * 10 + (48 + n mod 10))) by lia.
  replace (n / 10 * 10 + (48 + n mod 10) - 48) with n by lia.
  rewrite (u64_small n) by lia.
  assert ((two63 <? n) = false) as -> by (apply Z.ltb_ge; unfold two63; lia).
  reflexivity.
Qed.

Lemma leadingInt_utoa_aux (fuel : nat) (n : Z) (acc : string) :
  0 <= n < 2 ^ Z.of_nat fuel -> n <= two63 ->
  leadingInt (utoa_aux fuel n acc) 0 = leadingInt acc n.
Proof.
  revert n acc. induction fuel as [| fuel IH]; intros n acc Hn Hmax.
  - simpl in Hn. assert (n = 0) as -> by lia. reflexivity.
  - rewrite Nat2Z.inj_succ, Z.pow_succ_r in Hn by lia.
    cbn [utoa_aux]. destruct (n <? 10) eqn:E.
    + apply Z.ltb_lt in E. rewrite <- (leadingInt_step n acc) by lia.
      rewrite (Z.div_small n 10) by lia. reflexivity.
    + apply Z.ltb_ge in E.
      assert (0 <= n / 10 <= n) as Hq.
      { split; [apply Z.div_pos; lia |].
        apply Z.div_le_upper_bound; lia. }
      rewrite IH; [apply leadingInt_step; lia | | lia].
      split; [lia | apply Z.div_lt_upper_bound; lia].
Qed.

Lemma length_app (s t : string) :
  String.length (s ++ t) = (String.length s + String.length t)%nat.
Proof.
  induction s as [| c s IH]; simpl; [reflexivity | rewrite IH; reflexivity].
Qed.

(** A count of nanoseconds, printed in decimal with the unit [ns], parses
    back to itself: no duration above zero lacks an accepted text. *)
Lemma ParseDuration_ns (d : Duration) :
  0 < d <= maxInt64 -> ParseDuration (itoa d ++ "ns") = (d, None).
Proof.
  intros [H0 Hmax]. unfold maxInt64 in Hmax.
  rewrite (itoa_nonneg d) by lia.
  destruct (utoa_head d ltac:(lia)) as (c & rest & E & Hc & _).
  assert (leadingInt (utoa d ++ "ns") 0 = Some (d, "ns")) as HL.
  { unfold utoa. rewrite utoa_aux_app.
    rewrite leadingInt_utoa_aux;
      [reflexivity | apply utoa_fuel; lia | unfold two63; lia]. }
  rewrite E in *. change (String c rest ++ "ns") with (String c (rest ++ "ns")) in *.
  unfold ParseDuration. rewrite (strip_sign_digit c _ Hc).
  assert (String.eqb (String c (rest ++ "ns")) "0" = false) as ->.
  { cbn [String.eqb]. destruct rest; cbn; apply andb_false_r. }
  cbn [String.length parse_groups].
  unfold starts_number. rewrite Hc, orb_true_r. cbn [negb].
  rewrite HL. rewrite length_app.
  replace (S (String.length rest + String.length "ns")
           =? String.length "ns")%nat with false
    by (symmetry; apply Nat.eqb_neq; simpl; lia).
  change (fraction_part "ns") with (0, 1%float, false, "ns").
  cbn [negb andb]. change (span_unit "ns") with ("ns", EmptyString).
  cbv iota beta. change (unitMap "ns") with (Some 1).
  unfold group_value.
  change (two63 / 1) with two63. change (0 <? 0) with false.
  assert ((two63 <? d) = false) as Hd by (apply Z.ltb_ge; unfold two63; lia).
  rewrite Hd. cbv iota. rewrite Z.mul_1_r, (u64_small d) by lia.
  rewrite Z.add_0_l, (u64_small d) by lia. rewrite Hd.
  destruct (String.length rest + String.length "ns")%nat; cbn [parse_groups];
    (assert ((two63 - 1 <? d) = false) as -> by (apply Z.ltb_ge; unfold two63; lia));
    unfold int64_of_u64, maxInt64;
    (assert ((d <=? 9223372036854775807) = true) as -> by (apply Z.leb_le; lia));
    reflexivity.
Qed.

End DurationFacts.

(* ================================================================== *)
(** * The daily report on a well-formed record *)
(* ================================================================== *)

Module DayReportFacts.
Import GoLib spentcalories daysteps.

Lemma day_report_nonempty (steps : Z) (dist calories : float) :
  day_report steps dist calories <> EmptyString.
Proof. unfold day_report. cbn [append]. discriminate. Qed.

Lemma day_report_contains (steps : Z) (dist calories : float) :
  contains (day_report steps dist calories) (itoa steps).
Proof.
  unfold contains, day_report.
  exists "Количество шагов: ". eexists. reflexivity.
Qed.

(** The record ["s,text"] parses to [s] and the duration of [text]. *)
Lemma parsePackage_record (s : Z) (text : string) (d : Duration) :
  0 < s <= maxInt64 -> ParseDuration text = (d, None) -> 0 < d ->
  parsePackage (itoa s ++ "," ++ text) = (s, d, None).
Proof.
  intros Hs Hp Hd.
  apply (ReportFacts.parsePackage_fields _ (itoa s) text); try assumption;
    try lia.
  - apply DecimalFacts.Split_two.
    + rewrite DecimalFacts.itoa_nonneg by lia.
      apply DecimalFacts.all_digits_no_comma, DecimalFacts.utoa_digits. lia.
    + exact (DurationFacts.ParseDuration_no_comma _ _ Hp).
  - apply DecimalFacts.Atoi_itoa. lia.
Qed.

(** C8. For every step count [s] above zero (an [int]) and every duration
    [d] above zero (a [time.Duration]), in any text that
    [time.ParseDuration] reads as [d], [DayActionInfo] on the record
    ["s,text"], with weight and height above zero, returns the three lines
    written out below: a non-empty string that contains the decimal text of
    [s].  Every duration above zero has such a text. *)
Theorem DayActionInfo_report :
  (forall (s : Z) (text : string) (d : Duration) (weight height : float)
          (lg : Log),
      0 < s <= maxInt64 ->
      ParseDuration text = (d, None) -> 0 < d ->
      (0 <? weight)%float = true -> (0 <? height)%float = true ->
      let out := fst (DayActionInfo (itoa s ++ "," ++ text) weight height lg) in
      out <> EmptyString /\
      contains out (itoa s) /\
      out = "Количество шагов: " ++ itoa s ++ "." ++ nl ++
            "Дистанция составила "
            ++ fmt_f2 (float64_of_Z s * 0.65 / 1000)%float ++ " км." ++ nl ++
            "Вы сожгли "
            ++ fmt_f2 (fst (WalkingSpentCalories s weight height d))
            ++ " ккал." ++ nl) /\
  (forall d : Duration,
      0 < d <= maxInt64 -> ParseDuration (itoa d ++ "ns") = (d, None)).
Proof.
  split; [| exact DurationFacts.ParseDuration_ns].
  intros s text d weight height lg Hs Hp Hd Hw Hh out.
  apply FloatFacts.pos_not_le0 in Hw, Hh.
  pose proof (parsePackage_record s text d Hs Hp Hd) as Hrec.
  assert (out = day_report s (float64_of_Z s * 0.65 / 1000)%float
                  (fst (WalkingSpentCalories s weight height d))) as ->.
  { unfold out. rewrite (ReportFacts.DayActionInfo_ok _ _ _ lg _ _ Hw Hh Hrec).
    reflexivity. }
  split; [apply day_report_nonempty |].
  split; [apply day_report_contains | reflexivity].
Qed.

Lemma DayActionInfo_report_witness :
  fst (DayActionInfo (itoa 5000 ++ "," ++ "30m") 70 175 []) <> EmptyString /\
  contains (fst (DayActionInfo (itoa 5000 ++ "," ++ "30m") 70 175 []))
    (itoa 5000).
Proof.
  pose proof (proj1 DayActionInfo_report 5000 "30m" 1800000000000
                70%float 175%float []
                ltac:(unfold maxInt64; lia) eq_refl ltac:(lia) eq_refl eq_refl)
    as (H1 & H2 & _).
  split; [exact H1 | exact H2].
Defined.

(** The bounds are those of the two Go types.  A digit string past the
    largest [int] is no step count: [strconv.Atoi] rejects it with a range
    error and the report is empty. *)
Lemma DayActionInfo_steps_out_of_range :
  strconv_Atoi "9223372036854775808" = (maxInt64, Some ErrRange) /\
  fst (DayActionInfo "9223372036854775808,30m" 70 175 []) = EmptyString.
Proof. split; vm_compute; reflexivity. Qed.

(** Likewise a text past the largest [time.Duration], or one that rounds
    down to zero nanoseconds, denotes no duration above zero. *)
Lemma DayActionInfo_duration_out_of_range :
  ParseDuration "2562048h" = (0, Some (InvalidDuration "2562048h")) /\
  ParseDuration "0.0000000001s" = (0, None) /\
  fst (DayActionInfo "5000,2562048h" 70 175 []) = EmptyString /\
  fst (DayActionInfo "5000,0.0000000001s" 70 175 []) = EmptyString.
Proof. repeat split; vm_compute; reflexivity. Qed.

End DayReportFacts.

(* ================================================================== *)
(** * The reports on the sample records of the documentation *)
(* ================================================================== *)

Module Samples.
Import GoLib spentcalories daysteps.

Example DayActionInfo_sample :
  DayActionInfo "5000,30m" 70 175 []
  = ("Количество шагов: 5000." ++ nl ++
     "Дистанция составила 3.25 км." ++ nl ++
     "Вы сожгли 13781.25 ккал." ++ nl, []).
Proof. vm_compute. reflexivity. Qed.

Example TrainingInfo_running_sample :
  TrainingInfo "5000,Бег,30m" 70 175 []
  = ("Тип тренировки: Бег" ++ nl ++
     "Длительность: 0.50 ч." ++ nl ++
     "Дистанция: 393.75 км." ++ nl ++
     "Скорость: 787.50 км/ч" ++ nl ++
     "Сожгли калорий: 27562.50" ++ nl, None, []).
Proof. vm_compute. reflexivity. Qed.

Example TrainingInfo_walking_sample :
  TrainingInfo "5000,Ходьба,1h30m" 70 175 []
  = ("Тип тренировки: Ходьба" ++ nl ++
     "Длительность: 1.50 ч." ++ nl ++
     "Дистанция: 393.75 км." ++ nl ++
     "Скорость: 262.50 км/ч" ++ nl ++
     "Сожгли калорий: 13781.25" ++ nl, None, []).
Proof. vm_compute. reflexivity. Qed.

Example TrainingInfo_unknown_sample :
  TrainingInfo "5000,Плавание,30m" 70 175 []
  = (EmptyString, Some EUnknownTraining, []).
Proof. vm_compute. reflexivity. Qed.

(** A record that does not parse is logged, and only then. *)
Example TrainingInfo_logged_sample :
  TrainingInfo "5000,Бег" 70 175 []
  = (EmptyString, Some (EInvalidTraining "5000,Бег"),
     [EInvalidTraining "5000,Бег"]).
Proof. vm_compute. reflexivity. Qed.

Example DayActionInfo_logged_sample :
  DayActionInfo "-5,30m" 70 175 [] = (EmptyString, [EStepsNotPositive (-5)]).
Proof. vm_compute. reflexivity. Qed.

End Samples.

(* ================================================================== *)
(** * The two record parsers *)
(* ================================================================== *)

Module ParserFacts.
Import GoLib spentcalories daysteps.

(** ** Fields and separators *)

Lemma Split_length (s : string) :
  List.length (strings_Split s) = S (count_commas s).
Proof.
  induction s as [| c s IH]; [reflexivity |].
  cbn [strings_Split count_commas].
  destruct (Ascii.eqb c comma).
  - cbn [List.length]. rewrite IH. reflexivity.
  - destruct (strings_Split s) as [| p ps]; [discriminate IH | exact IH].
Qed.

Lemma count_commas_app (s t : string) :
  count_commas (s ++ t) = (count_commas s + count_commas t)%nat.
Proof.
  induction s as [| c s IH]; [reflexivity |].
  cbn [append count_commas]. destruct (Ascii.eqb c comma); rewrite IH; reflexivity.
Qed.

Lemma has_comma_count (s : string) :
  has_comma s = true -> (1 <= count_commas s)%nat.
Proof.
  induction s as [| c s IH]; [discriminate |].
  cbn [has_comma count_commas]. destruct (Ascii.eqb c comma); cbn [orb];
    [lia | exact IH].
Qed.

Lemma Split_three (a l b : string) :
  has_comma a = false -> has_comma l = false -> has_comma b = false ->
  strings_Split (a ++ "," ++ l ++ "," ++ b) = [a; l; b].
Proof.
  intros Ha Hl Hb. change ("," ++ l ++ "," ++ b) with (String comma (l ++ "," ++ b)).
  rewrite (DecimalFacts.Split_app a _ Ha), (DecimalFacts.Split_two l b Hl Hb).
  reflexivity.
Qed.

(** ** What the parsers return *)

Lemma parseTraining_ok (data label : string) (steps : Z) (duration : Duration) :
  parseTraining data = (steps, label, duration, None) ->
  0 < steps /\ 0 < duration /\
  exists a b, strings_Split data = [a; label; b] /\
              strconv_Atoi a = (steps, None) /\
              ParseDuration b = (duration, None).
Proof.
  unfold parseTraining.
  destruct (strings_Split data) as [| a [| l [| b [| c r]]]]; try discriminate.
  destruct (strconv_Atoi a) as [count [e |]] eqn:Ea; try discriminate.
  destruct (count <=? 0) eqn:Ec; try discriminate.
  destruct (ParseDuration b) as [d [e |]] eqn:Eb; try discriminate.
  destruct (d <=? 0) eqn:Ed; try discriminate.
  intros H. injection H as <- <- <-.
  apply Z.leb_gt in Ec, Ed.
  repeat split; try assumption. exists a, b. repeat split; assumption.
Qed.

(** X1. [parsePackage] returns a nil error exactly when the record has two
    fields, the first an [int] above zero and the second a duration above
    zero, and then returns those two values; with any error it returns 0
    and 0; and a step field that does not parse or is not above zero gives
    the error about steps whatever the duration field holds. *)
Theorem parsePackage_success_iff (data : string) (steps : Z) (duration : Duration) :
  (parsePackage data = (steps, duration, None) <->
   exists a b, strings_Split data = [a; b] /\
               strconv_Atoi a = (steps, None) /\ 0 < steps /\
               ParseDuration b = (duration, None) /\ 0 < duration) /\
  (snd (parsePackage data) <> None -> fst (parsePackage data) = (0, 0)) /\
  (forall a b n, strings_Split data = [a; b] ->
     (forall e, strconv_Atoi a = (n, Some e) ->
                parsePackage data = (0, 0, Some (EParseSteps a e))) /\
     (strconv_Atoi a = (n, None) -> n <= 0 ->
      parsePackage data = (0, 0, Some (EStepsNotPositive n)))).
Proof.
  split; [split |].
  - intros H. destruct (ReportFacts.parsePackage_ok _ _ _ H)
      as (Hs & Hd & a & b & Hsp & Ha & Hb).
    exists a, b. auto.
  - intros (a & b & Hsp & Ha & Hs & Hb & Hd).
    exact (ReportFacts.parsePackage_fields _ _ _ _ _ Hsp Ha Hs Hb Hd).
  - split.
    + unfold parsePackage.
      destruct (strings_Split data) as [| a [| b [| c r]]]; try reflexivity.
      destruct (strconv_Atoi a) as [count [e |]]; [reflexivity |].
      destruct (count <=? 0); [reflexivity |].
      destruct (ParseDuration b) as [d [e |]]; [reflexivity |].
      destruct (d <=? 0); [reflexivity |].
      intros H. exfalso. apply H. reflexivity.
    + intros a b n Hsp. unfold parsePackage. rewrite Hsp. split.
      * intros e Ha. rewrite Ha. reflexivity.
      * intros Ha Hn. rewrite Ha. apply Z.leb_le in Hn. rewrite Hn. reflexivity.
Qed.

Lemma parsePackage_success_iff_witness :
  parsePackage "5000,30m" = (5000, 1800000000000, None) /\
  parsePackage "0,oops" = (0, 0, Some (EStepsNotPositive 0)).
Proof.
  split.
  - apply (proj1 (parsePackage_success_iff "5000,30m" 5000 1800000000000)).
    exists "5000", "30m". repeat split; reflexivity.
  - apply (proj2 (proj2 (parsePackage_success_iff "0,oops" 0 0)) "0" "oops" 0
             eq_refl); [reflexivity | lia].
Defined.

(** X2. [parseTraining] returns a nil error exactly when the record has
    three fields, the first an [int] above zero and the third a duration
    above zero, and then returns them with the second field unchanged; with
    any error the count and the duration are 0 and the label is the second
    field of a three-field record, the empty string otherwise. *)
Theorem parseTraining_success_iff (data label : string) (steps : Z)
    (duration : Duration) :
  (parseTraining data = (steps, label, duration, None) <->
   exists a b, strings_Split data = [a; label; b] /\
               strconv_Atoi a = (steps, None) /\ 0 < steps /\
               ParseDuration b = (duration, None) /\ 0 < duration) /\
  (snd (parseTraining data) <> None ->
   fst (parseTraining data)
   = (0, match strings_Split data with
         | [_; l; _] => l
         | _ => EmptyString
         end, 0)).
Proof.
  split; [split |].
  - intros H. destruct (parseTraining_ok _ _ _ _ H)
      as (Hs & Hd & a & b & Hsp & Ha & Hb).
    exists a, b. auto.
  - intros (a & b & Hsp & Ha & Hs & Hb & Hd).
    exact (TrainingFacts.parseTraining_fields _ _ _ _ _ _ Hsp Ha Hs Hb Hd).
  - unfold parseTraining.
    destruct (strings_Split data) as [| a [| l [| b [| c r]]]]; try reflexivity.
    destruct (strconv_Atoi a) as [count [e |]]; [reflexivity |].
    destruct (count <=? 0); [reflexivity |].
    destruct (ParseDuration b) as [d [e |]]; [reflexivity |].
    destruct (d <=? 0); [reflexivity |].
    intros H. exfalso. apply H. reflexivity.
Qed.

Lemma parseTraining_success_iff_witness :
  parseTraining "5000,Бег,30m" = (5000, "Бег", 1800000000000, None) /\
  fst (parseTraining "x,Бег,30m") = (0, "Бег", 0).
Proof.
  split.
  - apply (proj1 (parseTraining_success_iff "5000,Бег,30m" "Бег" 5000
                    1800000000000)).
    exists "5000", "30m". repeat split; reflexivity.
  - apply (proj2 (parseTraining_success_iff "x,Бег,30m" "" 0 0)).
    simpl. discriminate.
Defined.

(** X3. The number of fields is one more than the number of commas: a
    record is rejected as badly formed by [parsePackage] exactly when it
    does not hold one comma, and by [parseTraining] exactly when it does not
    hold two; the empty record is rejected by both. *)
Theorem format_error_iff (data : string) :
  (snd (parsePackage data) = Some (EInvalidPackage data)
   <-> count_commas data <> 1%nat) /\
  (snd (parseTraining data) = Some (EInvalidTraining data)
   <-> count_commas data <> 2%nat).
Proof.
  pose proof (Split_length data) as HL. split.
  - unfold parsePackage.
    destruct (strings_Split data) as [| a [| b [| c r]]]; cbn [List.length] in HL.
    + discriminate HL.
    + split; [intros _; lia | reflexivity].
    + assert (count_commas data = 1%nat) as -> by lia.
      split; [| intros H; exfalso; apply H; reflexivity].
      destruct (strconv_Atoi a) as [count [e |]]; [discriminate |].
      destruct (count <=? 0); [discriminate |].
      destruct (ParseDuration b) as [d [e |]]; [discriminate |].
      destruct (d <=? 0); discriminate.
    + split; [intros _; lia | reflexivity].
  - unfold parseTraining.
    destruct (strings_Split data) as [| a [| l [| b [| c r]]]];
      cbn [List.length] in HL.
    + discriminate HL.
    + split; [intros _; lia | reflexivity].
    + split; [intros _; lia | reflexivity].
    + assert (count_commas data = 2%nat) as -> by lia.
      split; [| intros H; exfalso; apply H; reflexivity].
      destruct (strconv_Atoi a) as [count [e |]]; [discriminate |].
      destruct (count <=? 0); [discriminate |].
      destruct (ParseDuration b) as [d [e |]]; [discriminate |].
      destruct (d <=? 0); discriminate.
    + split; [intros _; lia | reflexivity].
Qed.

Lemma format_error_iff_witness :
  snd (parsePackage "") = Some (EInvalidPackage "") /\
  snd (parseTraining "") = Some (EInvalidTraining "").
Proof.
  split.
  - apply (proj1 (format_error_iff "")). simpl. discriminate.
  - apply (proj2 (format_error_iff "")). simpl. discriminate.
Defined.

End ParserFacts.

(* ================================================================== *)
(** * What the reports return and what they log *)
(* ================================================================== *)

Module EffectFacts.
Import GoLib spentcalories daysteps.

Lemma training_report_nonempty (activity : string) (hours dist speed calories : float) :
  training_report activity hours dist speed calories <> EmptyString.
Proof. unfold training_report. cbn [append]. discriminate. Qed.

(** With both guards passed and the record parsed, the label decides. *)
Lemma TrainingInfo_parsed (data label : string) (weight height : float)
    (lg : Log) (steps : Z) (duration : Duration) :
  (weight <=? 0)%float = false -> (height <=? 0)%float = false ->
  parseTraining data = (steps, label, duration, None) ->
  TrainingInfo data weight height lg
  = (if String.eqb label running || String.eqb label walking
     then (training_report label (Hours duration) (distance steps height)
             (meanSpeed steps height duration)
             (if String.eqb label running
              then fst (RunningSpentCalories steps weight height duration)
              else fst (WalkingSpentCalories steps weight height duration)),
           None)
     else (EmptyString, Some EUnknownTraining), lg).
Proof.
  intros Hw Hh Hp.
  destruct (ParserFacts.parseTraining_ok _ _ _ _ Hp) as (Hs & Hd & _).
  pose proof (CaloriesFacts.Running_no_error _ _ _ _ Hs Hw Hh Hd) as Hr.
  unfold TrainingInfo. rewrite Hw, Hh, Hp. unfold spent_calories.
  destruct (String.eqb label running); cbn [orb].
  - rewrite Hr. reflexivity.
  - destruct (String.eqb label walking); [| reflexivity].
    unfold WalkingSpentCalories. rewrite Hr. reflexivity.
Qed.

(** X4. [DayActionInfo] returns the empty string exactly when
    [weight <= 0], [height <= 0] or [parsePackage] fails; a NaN weight or
    height passes both guards. *)
Theorem DayActionInfo_empty_iff (data : string) (weight height : float)
    (lg : Log) :
  fst (DayActionInfo data weight height lg) = EmptyString <->
  (weight <=? 0)%float = true \/ (height <=? 0)%float = true \/
  snd (parsePackage data) <> None.
Proof.
  destruct (weight <=? 0)%float eqn:Ew;
    [unfold DayActionInfo; rewrite Ew; split; auto |].
  destruct (height <=? 0)%float eqn:Eh;
    [unfold DayActionInfo; rewrite Ew, Eh; split; auto |].
  destruct (parsePackage data) as [[steps duration] [e |]] eqn:Ep.
  - unfold DayActionInfo. rewrite Ew, Eh, Ep. cbn.
    split; [intros _; right; right; discriminate | reflexivity].
  - rewrite (ReportFacts.DayActionInfo_ok _ _ _ lg _ _ Ew Eh Ep). cbn [fst snd].
    split.
    + intros H. exfalso. exact (DayReportFacts.day_report_nonempty _ _ _ H).
    + intros [H | [H | H]]; try discriminate H. exfalso. apply H. reflexivity.
Qed.

Lemma DayActionInfo_empty_iff_witness :
  fst (DayActionInfo "5000,30m" 70 (-1) []) = EmptyString.
Proof.
  apply (proj2 (DayActionInfo_empty_iff "5000,30m" 70 (-1) [])).
  right. left. reflexivity.
Defined.

(** X5. [DayActionInfo] writes to the log only when both guards pass and
    [parsePackage] fails, and then appends that one error after the lines
    already there; with [weight <= 0] or [height <= 0] nothing is logged,
    however bad the record. *)
Theorem DayActionInfo_logs (data : string) (weight height : float) (lg : Log) :
  snd (DayActionInfo data weight height lg)
  = if (weight <=? 0)%float || (height <=? 0)%float then lg
    else match snd (parsePackage data) with
         | Some e => (lg ++ [e])%list
         | None => lg
         end.
Proof.
  destruct ((weight <=? 0)%float || (height <=? 0)%float) eqn:Eg.
  - unfold DayActionInfo. rewrite Eg. reflexivity.
  - apply orb_false_elim in Eg as [Ew Eh].
    destruct (parsePackage data) as [[steps duration] [e |]] eqn:Ep.
    + unfold DayActionInfo. rewrite Ew, Eh, Ep. reflexivity.
    + rewrite (ReportFacts.DayActionInfo_ok _ _ _ lg _ _ Ew Eh Ep). reflexivity.
Qed.

(** X6. [TrainingInfo] writes to the log only when both guards pass and
    [parseTraining] fails; the line appended is the error it returns.  The
    errors about weight, height and an unknown label are returned without
    being logged. *)
Theorem TrainingInfo_logs (data : string) (weight height : float) (lg : Log) :
  (snd (TrainingInfo data weight height lg)
   = if (weight <=? 0)%float || (height <=? 0)%float then lg
     else match snd (parseTraining data) with
          | Some e => (lg ++ [e])%list
          | None => lg
          end) /\
  (forall e, snd (TrainingInfo data weight height lg) = (lg ++ [e])%list ->
             fst (TrainingInfo data weight height lg) = (EmptyString, Some e)).
Proof.
  assert (forall e : error, (lg ++ [e])%list <> lg) as Hne.
  { intros e H. apply (f_equal (@List.length error)) in H.
    rewrite List.length_app in H. simpl in H. lia. }
  destruct (weight <=? 0)%float eqn:Ew.
  { unfold TrainingInfo. rewrite Ew. cbn. split; [reflexivity |].
    intros e H. symmetry in H. exfalso. exact (Hne e H). }
  destruct (height <=? 0)%float eqn:Eh.
  { unfold TrainingInfo. rewrite Ew, Eh. cbn. split; [reflexivity |].
    intros e H. symmetry in H. exfalso. exact (Hne e H). }
  destruct (parseTraining data) as [[[steps label] duration] [e |]] eqn:Ep.
  - unfold TrainingInfo. rewrite Ew, Eh, Ep. cbn. split; [reflexivity |].
    intros e' H. unfold log_Println in H. apply List.app_inv_head in H.
    injection H as <-. reflexivity.
  - rewrite (TrainingInfo_parsed _ _ _ _ lg _ _ Ew Eh Ep). cbn [fst snd orb].
    split; [reflexivity |].
    intros e H. symmetry in H. exfalso. exact (Hne e H).
Qed.

Lemma TrainingInfo_logs_witness :
  fst (TrainingInfo "5000,Бег" 70 175 [])
  = (EmptyString, Some (EInvalidTraining "5000,Бег")).
Proof.
  apply (proj2 (TrainingInfo_logs "5000,Бег" 70 175 [])). reflexivity.
Defined.

(** X7. [TrainingInfo] returns a nil error exactly when both guards pass,
    the record parses and the label is "Бег" or "Ходьба"; the string it
    returns is empty exactly when the error is not nil. *)
Theorem TrainingInfo_success_iff (data : string) (weight height : float)
    (lg : Log) :
  (snd (fst (TrainingInfo data weight height lg)) = None <->
   (weight <=? 0)%float = false /\ (height <=? 0)%float = false /\
   exists steps label duration,
     parseTraining data = (steps, label, duration, None) /\
     (label = "Бег" \/ label = "Ходьба")) /\
  (fst (fst (TrainingInfo data weight height lg)) = EmptyString <->
   snd (fst (TrainingInfo data weight height lg)) <> None).
Proof.
  destruct (weight <=? 0)%float eqn:Ew.
  { unfold TrainingInfo. rewrite Ew. cbn. split; split; try discriminate.
    - intros (H & _). discriminate H.
    - reflexivity. }
  destruct (height <=? 0)%float eqn:Eh.
  { unfold TrainingInfo. rewrite Ew, Eh. cbn. split; split; try discriminate.
    - intros (_ & H & _). discriminate H.
    - reflexivity. }
  destruct (parseTraining data) as [[[steps label] duration] [e |]] eqn:Ep.
  { unfold TrainingInfo. rewrite Ew, Eh, Ep. cbn. split; split; try discriminate.
    - intros (_ & _ & s & l & d & H & _). discriminate H.
    - reflexivity. }
  rewrite (TrainingInfo_parsed _ _ _ _ lg _ _ Ew Eh Ep). cbn [fst].
  unfold running, walking.
  destruct (String.eqb_spec label "Бег") as [E1 | E1]; cbn [orb fst snd].
  - split; split; auto.
    + intros _. repeat split. exists steps, label, duration. auto.
    + intros H. exfalso. exact (training_report_nonempty _ _ _ _ _ H).
    + intros H. exfalso. apply H. reflexivity.
  - destruct (String.eqb_spec label "Ходьба") as [E2 | E2]; cbn [fst snd].
    + split; split; auto.
      * intros _. repeat split. exists steps, label, duration. auto.
      * intros H. exfalso. exact (training_report_nonempty _ _ _ _ _ H).
      * intros H. exfalso. apply H. reflexivity.
    + split; split; try discriminate; try reflexivity.
      intros (_ & _ & s & l & d & H & [Hl | Hl]); injection H as _ <- _;
        contradiction.
Qed.

Lemma TrainingInfo_success_iff_witness :
  snd (fst (TrainingInfo "5000,Ходьба,30m" 70 175 [])) = None.
Proof.
  apply (proj1 (TrainingInfo_success_iff "5000,Ходьба,30m" 70 175 [])).
  repeat split. exists 5000, "Ходьба", 1800000000000. split; [reflexivity |].
  right. reflexivity.
Defined.



(** X9. A record that [DayActionInfo] reports on is never a record that
    [TrainingInfo] accepts: no record is accepted by both parsers, so for
    the same weight and height [TrainingInfo] rejects it as badly formed. *)
Theorem reports_disjoint (data : string) (weight height : float) (lg lg' : Log) :
  (snd (parsePackage data) = None ->
   parseTraining data = (0, EmptyString, 0, Some (EInvalidTraining data))) /\
  (snd (parseTraining data) = None ->
   parsePackage data = (0, 0, Some (EInvalidPackage data))) /\
  (fst (DayActionInfo data weight height lg) <> EmptyString ->
   fst (TrainingInfo data weight height lg')
   = (EmptyString, Some (EInvalidTraining data))).
Proof.
  assert (snd (parsePackage data) = None ->
          parseTraining data = (0, EmptyString, 0, Some (EInvalidTraining data)))
    as H1.
  { destruct (parsePackage data) as [[s d] [e |]] eqn:E; [discriminate |].
    intros _. destruct (ReportFacts.parsePackage_ok _ _ _ E)
      as (_ & _ & a & b & Hsp & _).
    unfold parseTraining. rewrite Hsp. reflexivity. }
  split; [exact H1 | split].
  - destruct (parseTraining data) as [[[s l] d] [e |]] eqn:E; [discriminate |].
    intros _. destruct (ParserFacts.parseTraining_ok _ _ _ _ E)
      as (_ & _ & a & b & Hsp & _).
    unfold parsePackage. rewrite Hsp. reflexivity.
  - intros Hne.
    destruct (weight <=? 0)%float eqn:Ew;
      [exfalso; apply Hne; unfold DayActionInfo; rewrite Ew; reflexivity |].
    destruct (height <=? 0)%float eqn:Eh;
      [exfalso; apply Hne; unfold DayActionInfo; rewrite Ew, Eh; reflexivity |].
    destruct (snd (parsePackage data)) as [e |] eqn:Ep.
    + exfalso. apply Hne. unfold DayActionInfo. rewrite Ew, Eh.
      destruct (parsePackage data) as [[s d] err]. cbn in Ep. subst err.
      reflexivity.
    + unfold TrainingInfo. rewrite Ew, Eh, (H1 eq_refl). reflexivity.
Qed.

Lemma reports_disjoint_witness :
  fst (TrainingInfo "5000,30m" 70 175 [])
  = (EmptyString, Some (EInvalidTraining "5000,30m")).
Proof.
  apply (proj2 (proj2 (reports_disjoint "5000,30m" 70 175 [] []))).
  vm_compute. discriminate.
Defined.

End EffectFacts.

(* ================================================================== *)
(** * The calorie formulas put together, and NaN *)
(* ================================================================== *)

Module FormulaFacts.
Import GoLib spentcalories daysteps.

(** X10. Once the four guards of [RunningSpentCalories] pass, the guards of
    [meanSpeed] and [distance] pass as well, so the calories are one closed
    formula of the inputs, and the walking calories are that formula times
    0.5. *)
Theorem calories_closed_form (steps : Z) (weight height : float)
    (duration : Duration) :
  0 < steps -> (weight <=? 0)%float = false ->
  (height <=? 0)%float = false -> 0 < duration ->
  let dist := (0.45 * height * float64_of_Z steps / 1000)%float in
  let kcal := (weight * (dist / Hours duration) * Minutes duration / 60)%float in
  distance steps height = dist /\
  meanSpeed steps height duration = (dist / Hours duration)%float /\
  RunningSpentCalories steps weight height duration = (kcal, None) /\
  WalkingSpentCalories steps weight height duration = ((kcal * 0.5)%float, None).
Proof.
  intros Hs Hw Hh Hd dist kcal.
  assert (distance steps height = dist) as Hdist.
  { unfold distance.
    rewrite (CaloriesFacts.int_pos_not_le0 _ Hs), Hh, CaloriesFacts.MInKm_float.
    reflexivity. }
  assert (meanSpeed steps height duration = (dist / Hours duration)%float)
    as Hspeed.
  { unfold meanSpeed.
    rewrite (CaloriesFacts.int_pos_not_le0 _ Hs), Hh,
      (CaloriesFacts.int_pos_not_le0 _ Hd), Hdist.
    reflexivity. }
  assert (RunningSpentCalories steps weight height duration = (kcal, None))
    as Hrun.
  { rewrite (CaloriesFacts.Running_no_error _ _ _ _ Hs Hw Hh Hd), Hspeed.
    reflexivity. }
  repeat split; try assumption.
  unfold WalkingSpentCalories. rewrite Hrun. reflexivity.
Qed.

Lemma calories_closed_form_witness :
  RunningSpentCalories 5000 70 175 1800000000000
  = ((70 * (0.45 * 175 * float64_of_Z 5000 / 1000 / Hours 1800000000000)
      * Minutes 1800000000000 / 60)%float, None).
Proof.
  apply (calories_closed_form 5000 70 175 1800000000000);
    try reflexivity; lia.
Defined.

(** ** NaN goes through *)






End FormulaFacts.

(* ================================================================== *)
(** * Records that denote the same values, signs and labels *)
(* ================================================================== *)

Module RecordFacts.
Import GoLib spentcalories daysteps.

(** ** An accepted step field holds no comma *)

Lemma parse_uint_digits (s : string) (n m : Z) :
  parse_uint s n = inl m -> all_digits s = true.
Proof.
  revert n. induction s as [| c s IH]; intros n; [reflexivity |].
  cbn [parse_uint all_digits]. destruct (is_digit c); cbn [negb andb];
    [| discriminate].
  destruct (maxUint64 / 10 + 1 <=? n); [discriminate |].
  destruct (maxUint64 <? n * 10 + digit_val c); [discriminate |].
  apply IH.
Qed.

Lemma Atoi_no_comma (a : string) (n : Z) :
  strconv_Atoi a = (n, None) -> has_comma a = false.
Proof.
  unfold strconv_Atoi. destruct (strip_sign a) as [neg body] eqn:ES.
  rewrite (DurationFacts.strip_sign_comma _ _ _ ES).
  destruct body as [| c r]; [discriminate |].
  destruct (parse_uint (String c r) 0) as [un | []] eqn:EP; try discriminate.
  intros _.
  apply DecimalFacts.all_digits_no_comma. exact (parse_uint_digits _ _ _ EP).
Qed.

(** X12. Both reports depend on the step field and the duration field only
    through the values they denote: two records whose step fields parse to
    the same [int] and whose duration fields parse to the same duration
    give the same result and the same log (for [TrainingInfo], with the
    same comma-free label). *)
Theorem reports_depend_on_values (a a' t t' label : string) (s : Z)
    (d : Duration) (weight height : float) (lg : Log) :
  strconv_Atoi a = (s, None) -> strconv_Atoi a' = (s, None) ->
  ParseDuration t = (d, None) -> ParseDuration t' = (d, None) ->
  has_comma label = false ->
  DayActionInfo (a ++ "," ++ t) weight height lg
  = DayActionInfo (a' ++ "," ++ t') weight height lg /\
  TrainingInfo (a ++ "," ++ label ++ "," ++ t) weight height lg
  = TrainingInfo (a' ++ "," ++ label ++ "," ++ t') weight height lg.
Proof.
  intros Ha Ha' Ht Ht' Hl.
  pose proof (Atoi_no_comma _ _ Ha) as Ca.
  pose proof (Atoi_no_comma _ _ Ha') as Ca'.
  pose proof (DurationFacts.ParseDuration_no_comma _ _ Ht) as Ct.
  pose proof (DurationFacts.ParseDuration_no_comma _ _ Ht') as Ct'.
  split.
  - assert (parsePackage (a ++ "," ++ t) = parsePackage (a' ++ "," ++ t')) as E.
    { unfold parsePackage.
      rewrite (DecimalFacts.Split_two a t Ca Ct),
        (DecimalFacts.Split_two a' t' Ca' Ct'), Ha, Ha', Ht, Ht'.
      reflexivity. }
    unfold DayActionInfo. rewrite E. reflexivity.
  - assert (parseTraining (a ++ "," ++ label ++ "," ++ t)
            = parseTraining (a' ++ "," ++ label ++ "," ++ t')) as E.
    { unfold parseTraining.
      rewrite (ParserFacts.Split_three a label t Ca Hl Ct),
        (ParserFacts.Split_three a' label t' Ca' Hl Ct'), Ha, Ha', Ht, Ht'.
      reflexivity. }
    unfold TrainingInfo. rewrite E. reflexivity.
Qed.

Lemma reports_depend_on_values_witness :
  DayActionInfo ("+05000" ++ "," ++ "30m") 70 175 []
  = DayActionInfo ("5000" ++ "," ++ "0.5h") 70 175 [].
Proof.
  apply (reports_depend_on_values "+05000" "5000" "30m" "0.5h" "Бег" 5000
           1800000000000 70 175 []); reflexivity.
Defined.

(** ** Signs on the duration *)

(** The sum [parse_groups] returns does not depend on the text kept for the
    error messages. *)
Lemma parse_groups_orig (o o' : string) (fuel : nat) (s : string) (d0 n : Z) :
  parse_groups fuel o s d0 = inl n -> parse_groups fuel o' s d0 = inl n.
Proof.
  revert s d0. induction fuel as [| fuel IH]; intros s d0;
    (destruct s as [| c0 r]; [intros H; exact H |]); cbn [parse_groups];
    [discriminate |].
  destruct (negb (starts_number c0)); [discriminate |].
  destruct (leadingInt (String c0 r) 0) as [[v s1] |]; [| discriminate].
  destruct (fraction_part s1) as [[[f scale] post] s2].
  destruct (negb (negb (String.length (String c0 r) =? String.length s1)%nat)
            && negb post); [discriminate |].
  destruct (span_unit s2) as [u s3].
  destruct u as [| cu u]; [discriminate |].
  destruct (unitMap (String cu u)) as [unit |]; [| discriminate].
  destruct (group_value v f scale unit) as [v' |]; [| discriminate].
  destruct (two63 <? u64 (d0 + v')); [discriminate |].
  apply IH.
Qed.

(** [ParseDuration] after its sign has been read. *)
Lemma ParseDuration_signed (orig : string) (neg : bool) (s : string) :
  strip_sign orig = (neg, s) ->
  ParseDuration orig
  = if String.eqb s "0" then (0, None)
    else match s with
         | EmptyString => (0, Some (InvalidDuration orig))
         | _ =>
             match parse_groups (String.length s) orig s 0 with
             | inr e => (0, Some e)
             | inl d =>
                 if neg then (neg64 (int64_of_u64 d), None)
                 else if two63 - 1 <? d then (0, Some (InvalidDuration orig))
                 else (int64_of_u64 d, None)
             end
         end.
Proof. intros H. unfold ParseDuration. rewrite H. reflexivity. Qed.

(** A minus sign in front of an accepted unsigned text negates the value. *)
Lemma ParseDuration_minus (t : string) (d : Duration) :
  strip_sign t = (false, t) -> ParseDuration t = (d, None) -> 0 < d ->
  ParseDuration ("-" ++ t) = (- d, None).
Proof.
  intros Hsign Hp Hd.
  rewrite (ParseDuration_signed t false t Hsign) in Hp.
  rewrite (ParseDuration_signed ("-" ++ t) true t eq_refl).
  destruct (String.eqb t "0"); [injection Hp as <-; lia |].
  destruct t as [| c r]; [discriminate Hp |].
  destruct (parse_groups (String.length (String c r)) (String c r)
              (String c r) 0) as [n | e] eqn:EG; [| discriminate Hp].
  rewrite (parse_groups_orig _ ("-" ++ String c r) _ _ _ _ EG).
  destruct (two63 - 1 <? n) eqn:En; [discriminate Hp |].
  apply Z.ltb_ge in En. unfold two63 in En.
  assert (int64_of_u64 n = n) as Hn.
  { unfold int64_of_u64, maxInt64.
    destruct (n <=? 9223372036854775807) eqn:E1;
      [reflexivity | apply Z.leb_gt in E1; lia]. }
  rewrite Hn in *. injection Hp as <-.
  unfold neg64, minInt64.
  destruct (n =? -9223372036854775808) eqn:E2;
    [apply Z.eqb_eq in E2; lia | reflexivity].
Qed.

(** X13. A duration field that would be accepted, with a minus sign put in
    front, is parsed to the negated duration and then rejected as not above
    zero, by both parsers; [DayActionInfo] returns the empty string and
    logs that error. *)
Theorem negative_duration_rejected (a label t : string) (s : Z) (d : Duration)
    (weight height : float) (lg : Log) :
  strconv_Atoi a = (s, None) -> 0 < s ->
  strip_sign t = (false, t) -> ParseDuration t = (d, None) -> 0 < d ->
  has_comma label = false ->
  parsePackage (a ++ "," ++ "-" ++ t) = (0, 0, Some (EWalkDuration (- d))) /\
  parseTraining (a ++ "," ++ label ++ "," ++ "-" ++ t)
  = (0, label, 0, Some (EActivityDuration (- d))) /\
  ((weight <=? 0)%float = false -> (height <=? 0)%float = false ->
   DayActionInfo (a ++ "," ++ "-" ++ t) weight height lg
   = (EmptyString, (lg ++ [EWalkDuration (- d)])%list)).
Proof.
  intros Ha Hs Hsign Ht Hd Hl.
  pose proof (Atoi_no_comma _ _ Ha) as Ca.
  pose proof (ParseDuration_minus t d Hsign Ht Hd) as Hneg.
  pose proof (DurationFacts.ParseDuration_no_comma _ _ Hneg) as Ct.
  assert ((- d <=? 0) = true) as Hle by (apply Z.leb_le; lia).
  assert (parsePackage (a ++ "," ++ "-" ++ t)
          = (0, 0, Some (EWalkDuration (- d)))) as Hpkg.
  { unfold parsePackage.
    rewrite (DecimalFacts.Split_two a ("-" ++ t) Ca Ct), Ha,
      (CaloriesFacts.int_pos_not_le0 _ Hs), Hneg, Hle.
    reflexivity. }
  split; [exact Hpkg | split].
  - unfold parseTraining.
    rewrite (ParserFacts.Split_three a label ("-" ++ t) Ca Hl Ct), Ha,
      (CaloriesFacts.int_pos_not_le0 _ Hs), Hneg, Hle.
    reflexivity.
  - intros Hw Hh. unfold DayActionInfo. rewrite Hw, Hh, Hpkg. reflexivity.
Qed.

Lemma negative_duration_rejected_witness :
  parsePackage ("5000" ++ "," ++ "-" ++ "30m")
  = (0, 0, Some (EWalkDuration (- 1800000000000))).
Proof.
  apply (negative_duration_rejected "5000" "Бег" "30m" 5000 1800000000000
           70 175 []); try reflexivity; lia.
Defined.

(** ** Labels *)

(** X14. [parseTraining] hands the label back byte for byte, whatever it is
    (the empty label included), as long as it holds no comma; a label with a
    comma makes the record badly formed. *)
Theorem parseTraining_label (a label t : string) (s : Z) (d : Duration) :
  strconv_Atoi a = (s, None) -> 0 < s ->
  ParseDuration t = (d, None) -> 0 < d ->
  (has_comma label = false ->
   parseTraining (a ++ "," ++ label ++ "," ++ t) = (s, label, d, None)) /\
  (has_comma label = true ->
   parseTraining (a ++ "," ++ label ++ "," ++ t)
   = (0, EmptyString, 0,
      Some (EInvalidTraining (a ++ "," ++ label ++ "," ++ t)))).
Proof.
  intros Ha Hs Ht Hd.
  pose proof (Atoi_no_comma _ _ Ha) as Ca.
  pose proof (DurationFacts.ParseDuration_no_comma _ _ Ht) as Ct.
  split; intros Hl.
  - apply (TrainingFacts.parseTraining_fields _ a label t); try assumption.
    exact (ParserFacts.Split_three a label t Ca Hl Ct).
  - pose proof (ParserFacts.Split_length (a ++ "," ++ label ++ "," ++ t)) as HL.
    rewrite !ParserFacts.count_commas_app in HL.
    pose proof (ParserFacts.has_comma_count _ Hl) as Hc.
    change (count_commas ",") with 1%nat in HL.
    unfold parseTraining.
    destruct (strings_Split (a ++ "," ++ label ++ "," ++ t))
      as [| x1 [| x2 [| x3 [| x4 r]]]]; try reflexivity.
    cbn [List.length] in HL. lia.
Qed.

Lemma parseTraining_label_witness :
  parseTraining ("5000" ++ "," ++ "" ++ "," ++ "30m")
  = (5000, EmptyString, 1800000000000, None).
Proof.
  apply (parseTraining_label "5000" "" "30m" 5000 1800000000000);
    try reflexivity; lia.
Defined.

End RecordFacts.
